(** * Snapchat formatter: the image transform of [server.py]

    A shallow embedding of [process_image] (server.py, lines 46-135) and the
    properties of its crop rectangle, its result raster, its metadata record
    and its error behaviour, followed by the POST handler that calls it
    (lines 144-236 and 246-249).

    Python integers are [Z].  Python floats are IEEE 754 binary64 numbers,
    modelled by the Standard Library's executable specification [SpecFloat]
    at precision 53 and maximal exponent 1024.  Exceptions are values of an
    error monad. *)

From Stdlib Require Import ZArith QArith Qround Lia Bool List String Ascii.
From Stdlib Require Import Strings.Byte.
From Stdlib Require Import Floats.SpecFloat.
Import ListNotations.

Local Open Scope Z_scope.

(** ** Exceptions and the error monad *)

(** The exception classes that can travel through [process_image]. *)
Inductive exception : Type :=
| AttributeError
| KeyError
| IndexError
| ZeroDivisionError
| OverflowError
| ValueError
| SyntaxError
| StructError
| UnboundLocalError
| OSError
| UnidentifiedImageError.

Inductive result (A : Type) : Type :=
| Ok (a : A)
| Raise (e : exception).

Arguments Ok {A} a.
Arguments Raise {A} e.

Definition bind {A B : Type} (r : result A) (k : A -> result B) : result B :=
  match r with
  | Ok a => k a
  | Raise e => Raise e
  end.

Notation "x <- r ;; k" := (bind r (fun x => k))
  (at level 61, r at next level, right associativity).
Notation "' p <- r ;; k" := (bind r (fun p => k))
  (at level 61, p pattern, r at next level, right associativity).

(** ** Python floats *)

Module PyFloat.

Definition prec : Z := 53.
Definition emax : Z := 1024.

Definition float : Type := spec_float.

(** [float(n)]: the nearest double, [OverflowError] beyond the range. *)
Definition of_int (n : Z) : result float :=
  match binary_normalize prec emax n 0 false with
  | S754_infinity _ => Raise OverflowError
  | f => Ok f
  end.

Definition is_zero (f : float) : bool :=
  match f with
  | S754_zero _ => true
  | _ => false
  end.

(** [a / b] on two integers: true division.  CPython returns the correctly
    rounded quotient; for operands that are doubles themselves (below
    2^53 in magnitude) this is the IEEE quotient of the converted
    operands, which is what is written here. *)
Definition truediv_int (a b : Z) : result float :=
  if b =? 0 then Raise ZeroDivisionError
  else
    fa <- of_int a ;;
    fb <- of_int b ;;
    Ok (SFdiv prec emax fa fb).

(** [n * f] with [n] an integer and [f] a float. *)
Definition mul_int_float (n : Z) (f : float) : result float :=
  fn <- of_int n ;;
  Ok (SFmul prec emax fn f).

(** [n / f] with [n] an integer and [f] a float. *)
Definition truediv_int_float (n : Z) (f : float) : result float :=
  if is_zero f then Raise ZeroDivisionError
  else
    fn <- of_int n ;;
    Ok (SFdiv prec emax fn f).

(** [x > y]. *)
Definition gt (x y : float) : bool := SFltb y x.

(** [int(f)]: truncation towards zero. *)
Definition to_int (f : float) : result Z :=
  match f with
  | S754_zero _ => Ok 0
  | S754_finite s m e =>
      let a :=
        match e with
        | Z0 => Zpos m
        | Zpos p => Z.shiftl (Zpos m) e
        | Zneg p => Zpos m / 2 ^ Zpos p
        end in
      Ok (if s then - a else a)
  | S754_infinity _ => Raise OverflowError
  | S754_nan => Raise ValueError
  end.

End PyFloat.

(** ** Configuration (server.py, lines 34-40) *)

Definition TARGET_WIDTH : Z := 1080.
Definition TARGET_HEIGHT : Z := 1920.

(** [TARGET_RATIO = 9 / 16], evaluated once when the module is loaded. *)
Definition TARGET_RATIO : PyFloat.float :=
  Eval vm_compute in
    match PyFloat.truediv_int 9 16 with
    | Ok f => f
    | Raise _ => S754_nan
    end.

Definition JPEG_QUALITY : Z := 92.

(** ** The crop rectangle (server.py, lines 89-112) *)

Record crop_rect : Type := mkCrop {
  crop_x : Z;
  crop_y : Z;
  crop_width : Z;
  crop_height : Z
}.

Definition crop_region (orig_width orig_height : Z) (crop_mode : string)
  : result crop_rect :=
  img_ratio <- PyFloat.truediv_int orig_width orig_height ;;
  if PyFloat.gt img_ratio TARGET_RATIO then
    let crop_height := orig_height in
    scaled <- PyFloat.mul_int_float orig_height TARGET_RATIO ;;
    crop_width <- PyFloat.to_int scaled ;;
    let crop_y := 0 in
    let crop_x := (orig_width - crop_width) / 2 in
    Ok (mkCrop crop_x crop_y crop_width crop_height)
  else
    let crop_width := orig_width in
    scaled <- PyFloat.truediv_int_float orig_width TARGET_RATIO ;;
    crop_height <- PyFloat.to_int scaled ;;
    let crop_x := 0 in
    let crop_y :=
      if (crop_mode =? "top")%string then 0
      else if (crop_mode =? "bottom")%string then orig_height - crop_height
      else (orig_height - crop_height) / 2 in
    Ok (mkCrop crop_x crop_y crop_width crop_height).

(** ** Pillow images

    Pillow is not part of the repository.  An image is modelled by what
    [process_image] observes of it: its mode, its size, what a call of
    [_getexif] does, and the pixel storage [im], which stays abstract.  The
    pixel-level work of the library (decoding, transposing, converting,
    pasting, cropping, resampling, encoding) is an interface, [Pillow]; the
    Python-level methods below compute modes and sizes as Pillow does and
    pass the pixels through that interface.

    Pillow decodes lazily: [Image.open] reads the header and the pixels are
    loaded by the first method that needs them.  Either failure leaves
    [process_image] as an exception that no handler of the function lists, so
    both are taken to occur in [Image_open]. *)

Definition bytes : Type := list byte.

(** A value stored under an EXIF tag: an integer, or anything else. *)
Inductive exif_value : Type :=
| ExifInt (n : Z)
| ExifOther.

Definition exif_dict : Type := list (Z * exif_value).

(** [d.get(key)] *)
Fixpoint dict_get (d : exif_dict) (key : Z) : option exif_value :=
  match d with
  | [] => None
  | (k, v) :: rest => if k =? key then Some v else dict_get rest key
  end.

(** [value == n] for the result of [d.get(key)] and an integer literal. *)
Definition value_is (v : option exif_value) (n : Z) : bool :=
  match v with
  | Some (ExifInt m) => m =? n
  | _ => false
  end.

Record Image (R : Type) : Type := mkImage {
  mode : string;
  size : Z * Z;
  _getexif : result (option exif_dict);
  im : R
}.

Arguments mkImage {R} mode size _getexif im.
Arguments mode {R} i.
Arguments size {R} i.
Arguments _getexif {R} i.
Arguments im {R} i.

Class Pillow : Type := {
  raster : Type;
  (** [Image.open(io.BytesIO(data))] *)
  Image_open : bytes -> result (Image raster);
  core_transpose : Z -> raster -> raster;
  core_convert : string -> string -> raster -> raster;
  core_fill : string -> Z * Z -> Z * Z * Z -> raster;
  core_getband : string -> raster -> raster;
  core_paste : raster -> raster -> option raster -> raster;
  core_crop : Z * Z * Z * Z -> raster -> raster;
  core_resize_lanczos : Z * Z -> raster -> raster;
  (** the JPEG encoder: mode, size, pixels, quality, optimize *)
  core_jpeg_encode : string -> Z * Z -> raster -> Z -> bool -> bytes
}.

(** The head of Pillow's [ExifTags.TAGS], in the order of its keys, up to the
    entry the loop of [process_image] stops at. *)
Definition ExifTags_TAGS : list (Z * string) :=
  [ (1, "InteropIndex"); (11, "ProcessingSoftware"); (254, "NewSubfileType");
    (255, "SubfileType"); (256, "ImageWidth"); (257, "ImageLength");
    (258, "BitsPerSample"); (259, "Compression");
    (262, "PhotometricInterpretation"); (263, "Thresholding");
    (264, "CellWidth"); (265, "CellLength"); (266, "FillOrder");
    (269, "DocumentName"); (270, "ImageDescription"); (271, "Make");
    (272, "Model"); (273, "StripOffsets"); (274, "Orientation") ]%string.

(** Number of bands of a mode ([len(img.getbands())]). *)
Definition getbands (m : string) : list string :=
  (if m =? "1" then ["1"]
   else if m =? "L" then ["L"]
   else if m =? "P" then ["P"]
   else if m =? "I" then ["I"]
   else if m =? "F" then ["F"]
   else if m =? "LA" then ["L"; "A"]
   else if m =? "PA" then ["P"; "A"]
   else if m =? "RGB" then ["R"; "G"; "B"]
   else if m =? "YCbCr" then ["Y"; "Cb"; "Cr"]
   else if m =? "LAB" then ["L"; "A"; "B"]
   else if m =? "HSV" then ["H"; "S"; "V"]
   else if m =? "RGBA" then ["R"; "G"; "B"; "A"]
   else if m =? "RGBX" then ["R"; "G"; "B"; "X"]
   else if m =? "CMYK" then ["C"; "M"; "Y"; "K"]
   else [])%string.

(** [m in modes] *)
Definition mode_in (m : string) (modes : list string) : bool :=
  existsb (String.eqb m) modes.

Section Methods.

Context {P : Pillow}.

Definition image : Type := Image raster.

(** [img.rotate(angle, expand=True)] for a multiple of 90 degrees, which
    Pillow performs as a transpose: 90 and 270 swap width and height.  The
    result is a plain image, without a [_getexif] method. *)
Definition rotate (img : image) (angle : Z) : image :=
  let '(w, h) := size img in
  let size' := if (angle =? 90) || (angle =? 270) then (h, w) else (w, h) in
  mkImage (mode img) size' (Raise AttributeError)
    (core_transpose angle (im img)).

(** [img.convert(m)] *)
Definition convert (img : image) (m : string) : image :=
  mkImage m (size img) (Raise AttributeError)
    (core_convert (mode img) m (im img)).

(** [Image.new(m, size, color)] *)
Definition Image_new (m : string) (sz : Z * Z) (color : Z * Z * Z) : image :=
  mkImage m sz (Raise AttributeError) (core_fill m sz color).

(** [img.split()[-1]]: the last band, an image of mode L. *)
Definition split_last (img : image) : image :=
  mkImage "L" (size img) (Raise AttributeError)
    (core_getband (mode img) (im img)).

(** [background.paste(img, mask=mask)]: the pixels of [background] are
    overwritten, its mode and size stay. *)
Definition paste (background img : image) (mask : option image) : image :=
  mkImage (mode background) (size background) (_getexif background)
    (core_paste (im background) (im img) (option_map im mask)).

(** [img.crop((x0, y0, x1, y1))]: Pillow refuses a box whose right edge
    [x1] is left of its left edge [x0], or whose lower edge [y1] is above
    its upper edge [y0]. *)
Definition crop (img : image) (box : Z * Z * Z * Z) : result image :=
  let '(x0, y0, x1, y1) := box in
  if x1 <? x0 then Raise ValueError
  else if y1 <? y0 then Raise ValueError
  else
    Ok (mkImage (mode img) (x1 - x0, y1 - y0)
          (Raise AttributeError) (core_crop box (im img))).

(** [img.resize(size, Image.Resampling.LANCZOS)]: Pillow refuses a target
    width or height below 1. *)
Definition resize (img : image) (sz : Z * Z) : result image :=
  if (fst sz <? 1) || (snd sz <? 1) then Raise ValueError
  else
    Ok (mkImage (mode img) sz (Raise AttributeError)
          (core_resize_lanczos sz (im img))).

(** [img.save(output, format='JPEG', quality=q, optimize=o)] followed by
    [output.getvalue()]: the JPEG writer refuses the modes it has no raw
    mode for. *)
Definition save_jpeg (img : image) (quality : Z) (optimize : bool)
  : result bytes :=
  if mode_in (mode img) ["1"; "L"; "RGB"; "RGBX"; "CMYK"; "YCbCr"]%string
  then Ok (core_jpeg_encode (mode img) (size img) (im img) quality optimize)
  else Raise OSError.

End Methods.

(** ** The transform (server.py, lines 46-135) *)

(** The info dictionary returned next to the JPEG bytes. *)
Record info : Type := mkInfo {
  original_width : Z;
  original_height : Z;
  crop_mode : string;
  result_width : Z;
  result_height : Z;
  file_size : Z
}.

(** The exception classes of the [except] clause of line 75. *)
Definition caught (e : exception) : bool :=
  match e with
  | AttributeError | KeyError | IndexError => true
  | _ => false
  end.

(** [try: body  except (AttributeError, KeyError, IndexError): pass], where
    [unchanged] is the state the handler leaves. *)
Definition try_except_pass {A : Type} (body : result A) (unchanged : A)
  : result A :=
  match body with
  | Ok a => Ok a
  | Raise e => if caught e then Ok unchanged else Raise e
  end.

(** The loop of lines 63-65: [orientation] is bound to each key in turn and
    the loop leaves at the key named Orientation. *)
Fixpoint tags_loop (tags : list (Z * string)) (orientation : option Z)
  : option Z :=
  match tags with
  | [] => orientation
  | (key, name) :: rest =>
      if (name =? "Orientation")%string then Some key
      else tags_loop rest (Some key)
  end.

Section Transform.

Context {P : Pillow}.

(** Lines 60-76: the EXIF rotation. *)
Definition correct_orientation (img : image) : result image :=
  try_except_pass
    (let orientation := tags_loop ExifTags_TAGS None in
     exif <- _getexif img ;;
     match exif with
     | None => Ok img
     | Some d =>
         key <- match orientation with
                | Some k => Ok k
                | None => Raise UnboundLocalError
                end ;;
         let orientation_value := dict_get d key in
         if value_is orientation_value 3 then Ok (rotate img 180)
         else if value_is orientation_value 6 then Ok (rotate img 270)
         else if value_is orientation_value 8 then Ok (rotate img 90)
         else Ok img
     end)
    img.

(** Lines 78-87: conversion to RGB, on white where there is transparency
    or a palette. *)
Definition to_rgb (img : image) : image :=
  if mode_in (mode img) ["RGBA"; "P"; "LA"]%string then
    let background := Image_new "RGB" (size img) (255, 255, 255) in
    let img := if (mode img =? "P")%string then convert img "RGBA" else img in
    let mask :=
      if (mode img =? "RGBA")%string then Some (split_last img) else None in
    paste background img mask
  else if negb (mode img =? "RGB")%string then convert img "RGB"
  else img.

Definition process_image (image_data : bytes) (crop_mode : string)
  : result (bytes * info) :=
  img <- Image_open image_data ;;
  img <- correct_orientation img ;;
  let img := to_rgb img in
  let '(orig_width, orig_height) := size img in
  box <- crop_region orig_width orig_height crop_mode ;;
  cropped <- crop img (crop_x box, crop_y box,
                       crop_x box + crop_width box,
                       crop_y box + crop_height box) ;;
  resized <- resize cropped (TARGET_WIDTH, TARGET_HEIGHT) ;;
  jpeg_data <- save_jpeg resized JPEG_QUALITY true ;;
  let info :=
    {| original_width := orig_width;
       original_height := orig_height;
       crop_mode := crop_mode;
       result_width := TARGET_WIDTH;
       result_height := TARGET_HEIGHT;
       file_size := Z.of_nat (List.length jpeg_data) |} in
  Ok (jpeg_data, info).

End Transform.

(** ** The statements of the specification *)

(** Pillow keeps the width and the height of a raster in a C [int]. *)
Definition MAX_DIM : Z := 2147483647.

Definition valid_dim (n : Z) : Prop := 1 <= n <= MAX_DIM.

(** The crop rectangle as the specification words it, over the rationals:
    the ratio [w / h] is compared with 9/16, and the other side of the
    rectangle is rounded down. *)
Definition spec_crop (w h : Z) (crop_mode : string) : crop_rect :=
  let target_ratio := (9 # 16)%Q in
  if negb (Qle_bool (inject_Z w / inject_Z h) target_ratio) then
    let cw := Qfloor (inject_Z h * target_ratio) in
    mkCrop ((w - cw) / 2) 0 cw h
  else
    let ch := Qfloor (inject_Z w / target_ratio) in
    let y :=
      if (crop_mode =? "top")%string then 0
      else if (crop_mode =? "bottom")%string then h - ch
      else (h - ch) / 2 in
    mkCrop 0 y w ch.

(** The three crop modes of the specification. *)
Definition known_crop_mode (m : string) : Prop :=
  m = "center"%string \/ m = "top"%string \/ m = "bottom"%string.

(** The orientation entry of the EXIF data of an image, when it can be read. *)
Definition orientation_of {R : Type} (img : Image R) : option exif_value :=
  match _getexif img with
  | Ok (Some d) => dict_get d 274
  | _ => None
  end.

(** The size of a raster once its orientation is corrected: width and height
    change places for the orientations 6 and 8. *)
Definition oriented_size {R : Type} (img : Image R) : Z * Z :=
  let '(w, h) := size img in
  if value_is (orientation_of img) 6 || value_is (orientation_of img) 8
  then (h, w) else (w, h).

(** Reading the orientation does not raise, or raises one of the three
    exception classes of the [except] clause. *)
Definition orientation_readable {R : Type} (img : Image R) : Prop :=
  match _getexif img with
  | Ok _ => True
  | Raise e => caught e = true
  end.

(** A source raster the transform is meant for. *)
Definition valid_source {R : Type} (img : Image R) : Prop :=
  valid_dim (fst (size img)) /\ valid_dim (snd (size img)) /\
  orientation_readable img.

(** The ratio of a crop rectangle is the target ratio, exactly. *)
Definition has_target_ratio (r : crop_rect) : Prop :=
  (inject_Z (crop_width r) / inject_Z (crop_height r) == 9 # 16)%Q.

(** The cases in which the EXIF block leaves the raster as it is: no EXIF
    data, no orientation entry or one that is none of 3, 6 and 8, or an
    exception of the [except] clause. *)
Definition orientation_skipped {R : Type} (img : Image R) : Prop :=
  match _getexif img with
  | Ok None => True
  | Ok (Some d) =>
      value_is (dict_get d 274) 3 = false /\
      value_is (dict_get d 274) 6 = false /\
      value_is (dict_get d 274) 8 = false
  | Raise e => caught e = true
  end.


(** ** A test codec

    A small instance of [Pillow] to run the transform on: a file is six
    bytes, a mode code, the width and the height in two bytes each, and a
    code for what [_getexif] does; pixels are not stored.  The encoder writes
    the same format. *)

Module TestCodec.

Definition mode_of_code (b : byte) : option string :=
  match b with
  | x00 => Some "RGB"
  | x01 => Some "RGBA"
  | x02 => Some "P"
  | x03 => Some "LA"
  | x04 => Some "L"
  | x05 => Some "CMYK"
  | _ => None
  end%string.

Definition code_of_mode (m : string) : byte :=
  (if m =? "RGB" then x00
   else if m =? "RGBA" then x01
   else if m =? "P" then x02
   else if m =? "LA" then x03
   else if m =? "L" then x04
   else if m =? "CMYK" then x05
   else xff)%string.

Definition exif_of_code (b : byte) : result (option exif_dict) :=
  match b with
  | x00 => Raise AttributeError
  | x01 => Ok None
  | x02 => Raise SyntaxError
  | x03 => Ok (Some [(271, ExifOther)])
  | _ => Ok (Some [(271, ExifOther);
                   (274, ExifInt (Z.of_N (Byte.to_N b) - 16))])
  end.

Definition word (hi lo : byte) : Z :=
  256 * Z.of_N (Byte.to_N hi) + Z.of_N (Byte.to_N lo).

Definition byte_of (n : Z) : byte :=
  match Byte.of_N (Z.to_N (n mod 256)) with
  | Some b => b
  | None => x00
  end.

Definition decode (data : bytes) : result (Image unit) :=
  match data with
  | [m; w1; w0; h1; h0; x] =>
      match mode_of_code m with
      | Some md => Ok (mkImage md (word w1 w0, word h1 h0) (exif_of_code x) tt)
      | None => Raise UnidentifiedImageError
      end
  | _ => Raise UnidentifiedImageError
  end.

Definition encode (m : string) (sz : Z * Z) (px : unit) (quality : Z)
    (optimize : bool) : bytes :=
  [code_of_mode m;
   byte_of (fst sz / 256); byte_of (fst sz);
   byte_of (snd sz / 256); byte_of (snd sz); x01].

Definition pillow : Pillow :=
  {| raster := unit;
     Image_open := decode;
     core_transpose := fun _ px => px;
     core_convert := fun _ _ px => px;
     core_fill := fun _ _ _ => tt;
     core_getband := fun _ px => px;
     core_paste := fun bg _ _ => bg;
     core_crop := fun _ px => px;
     core_resize_lanczos := fun _ px => px;
     core_jpeg_encode := encode |}.

(** An RGB file of 4000 x 3000 pixels without EXIF data. *)
Definition landscape : bytes := [x00; x0f; xa0; x0b; xb8; x01].

(** The same raster with the EXIF orientation 6. *)
Definition landscape_rotated : bytes := [x00; x0f; xa0; x0b; xb8; x16].

(** An RGBA file of 1000 x 2000 pixels whose class has no [_getexif]. *)
Definition portrait : bytes := [x01; x03; xe8; x07; xd0; x00].

(** A file whose EXIF block is not a TIFF directory: [_getexif] raises
    [SyntaxError]. *)
Definition broken_exif : bytes := [x00; x0f; xa0; x0b; xb8; x02].

End TestCodec.

(** ** The request handler (server.py, lines 138-253)

    *** Python byte strings and strings

    A [bytes] object is a list of bytes.  A Python [str] is a [string] that
    holds its UTF-8 encoding: [encode()] is then the identity, [decode()]
    checks that the bytes are well-formed UTF-8, and searching or splitting
    a [str] at an ASCII pattern is searching or splitting its encoding. *)

Module PyBytes.

(** [s.startswith(sub)] *)
Fixpoint starts_with (sub s : bytes) : bool :=
  match sub, s with
  | [], _ => true
  | _ :: _, [] => false
  | a :: sub', b :: s' => Byte.eqb a b && starts_with sub' s'
  end.

(** [s.find(sub)], with positions counted from [i]: the lowest position at
    which [sub] occurs, -1 when there is none. *)
Fixpoint find_from (sub s : bytes) (i : Z) : Z :=
  if starts_with sub s then i
  else
    match s with
    | [] => -1
    | _ :: s' => find_from sub s' (i + 1)
    end.

Definition find (s sub : bytes) : Z := find_from sub s 0.

(** [s.rfind(sub)]: the highest position at which [sub] occurs, -1 when
    there is none; [best] is the highest one met so far. *)
Fixpoint rfind_from (sub s : bytes) (i best : Z) : Z :=
  let best' := if starts_with sub s then i else best in
  match s with
  | [] => best'
  | _ :: s' => rfind_from sub s' (i + 1) best'
  end.

Definition rfind (s sub : bytes) : Z := rfind_from sub s 0 (-1).

(** [sub in s] *)
Definition contains (sub s : bytes) : bool := 0 <=? find s sub.

(** [s[a:b]] for positions that are not negative. *)
Definition slice (s : bytes) (a b : Z) : bytes :=
  firstn (Z.to_nat (b - a)) (skipn (Z.to_nat a) s).

(** [s.split(sep)] for a separator that is not empty (the handler never
    passes an empty one): the occurrences of [sep] are taken from the left
    and do not overlap.  [skip] counts the bytes of a separator still to be
    passed over, [piece] holds the current piece, last byte first. *)
Fixpoint split_from (sep s : bytes) (skip : nat) (piece : bytes)
  : list bytes :=
  match s with
  | [] => [rev piece]
  | b :: s' =>
      match skip with
      | S k => split_from sep s' k piece
      | O =>
          if starts_with sep s
          then rev piece :: split_from sep s' (List.length sep - 1) []
          else split_from sep s' O (b :: piece)
      end
  end.

Definition split (s sep : bytes) : list bytes := split_from sep s 0 [].

Definition byte_in (b : byte) (lo hi : N) : bool :=
  (lo <=? Byte.to_N b)%N && (Byte.to_N b <=? hi)%N.

Definition continuation (b : byte) : bool := byte_in b 128 191.

(** Well-formed UTF-8, the condition under which [decode()] succeeds. *)
Fixpoint utf8_valid (s : bytes) : bool :=
  match s with
  | [] => true
  | b0 :: r0 =>
      if byte_in b0 0 127 then utf8_valid r0
      else
        match r0 with
        | [] => false
        | b1 :: r1 =>
            if byte_in b0 194 223 && continuation b1 then utf8_valid r1
            else
              match r1 with
              | [] => false
              | b2 :: r2 =>
                  if (byte_in b0 224 224 && byte_in b1 160 191
                      || byte_in b0 225 236 && continuation b1
                      || byte_in b0 237 237 && byte_in b1 128 159
                      || byte_in b0 238 239 && continuation b1)
                     && continuation b2
                  then utf8_valid r2
                  else
                    match r2 with
                    | [] => false
                    | b3 :: r3 =>
                        if (byte_in b0 240 240 && byte_in b1 144 191
                            || byte_in b0 241 243 && continuation b1
                            || byte_in b0 244 244 && byte_in b1 128 143)
                           && continuation b2 && continuation b3
                        then utf8_valid r3
                        else false
                    end
              end
        end
  end.

(** The white space of [str.strip()], by the length of its encoding:
    U+0009-000D, U+001C-0020; U+0085, U+00A0; U+1680, U+2000-200A, U+2028,
    U+2029, U+202F, U+205F, U+3000. *)
Definition space1 (b : byte) : bool :=
  byte_in b 9 13 || byte_in b 28 32.

Definition space2 (b0 b1 : byte) : bool :=
  byte_in b0 194 194 && (byte_in b1 133 133 || byte_in b1 160 160).

Definition space3 (b0 b1 b2 : byte) : bool :=
  byte_in b0 225 225 && byte_in b1 154 154 && byte_in b2 128 128
  || byte_in b0 226 226 && byte_in b1 128 128
     && (byte_in b2 128 138 || byte_in b2 168 169 || byte_in b2 175 175)
  || byte_in b0 226 226 && byte_in b1 129 129 && byte_in b2 159 159
  || byte_in b0 227 227 && byte_in b1 128 128 && byte_in b2 128 128.

(** Removal of the white space at the front; with [backwards] the bytes are
    those of a reversed string, each character last byte first. *)
Fixpoint strip_front (backwards : bool) (s : bytes) : bytes :=
  match s with
  | [] => []
  | b0 :: r0 =>
      if space1 b0 then strip_front backwards r0
      else
        match r0 with
        | [] => s
        | b1 :: r1 =>
            if (if backwards then space2 b1 b0 else space2 b0 b1)
            then strip_front backwards r1
            else
              match r1 with
              | [] => s
              | b2 :: r2 =>
                  if (if backwards then space3 b2 b1 b0 else space3 b0 b1 b2)
                  then strip_front backwards r2
                  else s
              end
        end
  end.

End PyBytes.

(** No occurrence of [sub] begins within [a], whatever follows a later
    occurrence of [sub]: there is none in [a] followed by all but the last
    byte of [sub]. *)
Definition clear_before (sub a : bytes) : Prop :=
  PyBytes.contains sub (a ++ removelast sub) = false.

(** [s.encode()] *)
Definition encode (s : string) : bytes := list_byte_of_string s.

(** [sub in s] on strings *)
Definition str_contains (sub s : string) : bool :=
  PyBytes.contains (encode sub) (encode s).

(** [s.split(sep)] on strings *)
Definition str_split (s sep : string) : list string :=
  map string_of_list_byte (PyBytes.split (encode s) (encode sep)).

(** [s.strip()] *)
Definition str_strip (s : string) : string :=
  string_of_list_byte
    (rev (PyBytes.strip_front true
            (rev (PyBytes.strip_front false (encode s))))).

(** *** Exceptions and results of the handler *)

(** What can be raised inside the [try] block of [_handle_process]: the
    exceptions of the transform and of the built-in operations, and those of
    the codecs and of the JSON and base64 modules. *)
Inductive raised : Type :=
| Builtin (e : exception)
| TypeError
| UnicodeDecodeError
| JSONDecodeError
| BinasciiError.

Inductive outcome (A : Type) : Type :=
| Returned (a : A)
| Failed (e : raised).

Arguments Returned {A} a.
Arguments Failed {A} e.

Definition and_then {A B : Type} (r : outcome A) (k : A -> outcome B)
  : outcome B :=
  match r with
  | Returned a => k a
  | Failed e => Failed e
  end.

Notation "x <~ r ;; k" := (and_then r (fun x => k))
  (at level 61, r at next level, right associativity).
Notation "' p <~ r ;; k" := (and_then r (fun p => k))
  (at level 61, p pattern, r at next level, right associativity).

Definition of_result {A : Type} (r : result A) : outcome A :=
  match r with
  | Ok a => Returned a
  | Raise e => Failed (Builtin e)
  end.

(** [b.decode()] *)
Definition decode (b : bytes) : outcome string :=
  if PyBytes.utf8_valid b then Returned (string_of_list_byte b)
  else Failed UnicodeDecodeError.

(** *** JSON values and the modules of the standard library *)

#[warnings="-register-all"]
Inductive json : Type :=
| JNull
| JBool (b : bool)
| JInt (n : Z)
| JFloat (f : PyFloat.float)
| JStr (s : string)
| JArr (items : list json)
| JObj (members : list (string * json)).

(** The [json] and [base64] modules and the text of an exception are not
    part of the repository. *)
Class Runtime : Type := {
  (** [json.loads(body)] *)
  json_loads : bytes -> outcome json;
  (** [json.dumps(data)] *)
  json_dumps : json -> string;
  (** [base64.b64decode(s)] on a string *)
  b64decode : string -> outcome bytes;
  (** [base64.b64encode(b).decode()] *)
  b64encode : bytes -> string;
  (** [str(e)] *)
  exception_text : raised -> string
}.

(** *** Requests and responses *)

(** What the handler reads of a POST request: the path, the value of
    [self.headers.get('Content-Type', '')], and what reading the body does,
    the conversion of the Content-Length header and [self.rfile.read]. *)
Record request : Type := mkRequest {
  path : string;
  content_type : string;
  read_body : outcome bytes
}.

Inductive header_value : Type :=
| HStr (s : string)
| HInt (n : Z).

(** What the handler sends: the status of [send_response], the headers of
    its own [send_header] calls, in their order, and the bytes written.  The
    Server and Date headers that [send_response] adds are the library's. *)
Record response : Type := mkResponse {
  status : Z;
  headers : list (string * header_value);
  body : bytes
}.

(** What [do_POST] does: a response of the handler's own making, or the
    error page of [send_error]. *)
Inductive handled : Type :=
| Responded (r : response)
| ErrorPage (code : Z) (message : string).

(** Lines 246-249: [end_headers] adds the Cache-Control header. *)
Definition end_headers (sent : list (string * header_value))
  : list (string * header_value) :=
  sent ++ [("Cache-Control"%string,
            HStr "no-cache, no-store, must-revalidate")].

Definition CRLF : bytes := [x0d; x0a].

(** Lines 173-176 and 179-181: the data of a part lie between the first
    blank line and the last line break. *)
Definition field_data (part : bytes) : option bytes :=
  let data_start := PyBytes.find part (CRLF ++ CRLF) + 4 in
  let data_end := PyBytes.rfind part CRLF in
  if (4 <? data_start) && (data_start <? data_end)
  then Some (PyBytes.slice part data_start data_end)
  else None.

(** The shape of a multipart body as a browser sends it: after each
    boundary line a field, that is a line break, the header lines, a blank
    line, the data and a line break; after the last boundary line two dashes
    and a line break. *)
Definition boundary_line (boundary : string) : bytes :=
  encode "--" ++ encode boundary.

Definition form_field (header data : bytes) : bytes :=
  CRLF ++ header ++ CRLF ++ CRLF ++ data ++ CRLF.

Definition closing : bytes := encode "--" ++ CRLF.

(** [b'name="image"'] and [b'name="mode"'] *)
Definition field_name (name : string) : bytes :=
  encode "name=" ++ [x22] ++ encode name ++ [x22].

(** Lines 170-182: the loop over the parts. *)
Fixpoint parts_loop (parts : list bytes) (image_data : option bytes)
    (crop_mode : string) : outcome (option bytes * string) :=
  match parts with
  | [] => Returned (image_data, crop_mode)
  | part :: rest =>
      if PyBytes.contains (field_name "image") part then
        match field_data part with
        | Some data => parts_loop rest (Some data) crop_mode
        | None => parts_loop rest image_data crop_mode
        end
      else if PyBytes.contains (field_name "mode") part then
        match field_data part with
        | Some data =>
            text <~ decode data ;;
            parts_loop rest image_data (str_strip text)
        | None => parts_loop rest image_data crop_mode
        end
      else parts_loop rest image_data crop_mode
  end.

(** [d.get(key, default)] on a JSON object; any other value has no [get]. *)
Definition json_get (data : json) (key : string) (default : json)
  : outcome json :=
  match data with
  | JObj members =>
      match find (fun kv => (fst kv =? key)%string) members with
      | Some kv => Returned (snd kv)
      | None => Returned default
      end
  | _ => Failed (Builtin AttributeError)
  end.

(** Lines 196-197: what follows the first comma of a data URL. *)
Definition strip_data_url (image_b64 : string) : outcome string :=
  if str_contains "," image_b64 then
    match nth_error (str_split image_b64 ",") 1 with
    | Some piece => Returned piece
    | None => Failed (Builtin IndexError)
    end
  else Returned image_b64.

Definition is_comma (j : json) : bool :=
  match j with
  | JStr s => (s =? ",")%string
  | _ => false
  end.

(** The crop mode as [process_image] compares it with "top" and "bottom": a
    JSON value that is not a string equals neither, so the transform treats
    it as it treats "center". *)
Definition crop_mode_text (crop_mode : json) : string :=
  match crop_mode with
  | JStr s => s
  | _ => "center"%string
  end.

Section Handler.

Context {P : Pillow} {Rt : Runtime}.

(** Lines 195-199 on the value of the image member.  A string goes through
    [strip_data_url] and [b64decode]; a list or an object that holds a comma
    has no [split], and any other value is refused by the [in] test or by
    [b64decode]. *)
Definition decode_image (image_b64 : json) : outcome bytes :=
  match image_b64 with
  | JStr s =>
      payload <~ strip_data_url s ;;
      b64decode payload
  | JArr items =>
      if existsb is_comma items then Failed (Builtin AttributeError)
      else Failed TypeError
  | JObj members =>
      if existsb (fun kv => (fst kv =? ",")%string) members
      then Failed (Builtin AttributeError)
      else Failed TypeError
  | _ => Failed TypeError
  end.

(** Lines 223-232, with the header of [end_headers]. *)
Definition _send_json_response (data : json) (status : Z) : response :=
  let response := encode (json_dumps data) in
  mkResponse status
    (end_headers
       [("Content-Type", HStr "application/json");
        ("Content-Length", HInt (Z.of_nat (List.length response)));
        ("Access-Control-Allow-Origin", HStr "*")]%string)
    response.

(** Lines 234-236. *)
Definition _send_json_error (message : string) (status : Z) : response :=
  _send_json_response
    (JObj [("success", JBool false); ("error", JStr message)]%string) status.

(** The info dictionary as a JSON object; its crop_mode member is the
    object the handler passed to [process_image]. *)
Definition info_json (inf : info) (crop_mode : json) : json :=
  JObj [("original_width", JInt (original_width inf));
        ("original_height", JInt (original_height inf));
        ("crop_mode", crop_mode);
        ("result_width", JInt (result_width inf));
        ("result_height", JInt (result_height inf));
        ("file_size", JInt (file_size inf))]%string.

(** Lines 206-218.  [crop_mode] is a string on the multipart path and any
    JSON value on the JSON path; [process_image] reports it unchanged. *)
Definition process_and_respond (image_data : bytes) (crop_mode : json)
  : outcome response :=
  '(result_data, inf) <~
     of_result (process_image image_data (crop_mode_text crop_mode)) ;;
  let result_b64 := b64encode result_data in
  let response :=
    JObj [("success", JBool true);
          ("image", JStr ("data:image/jpeg;base64," ++ result_b64));
          ("info", info_json inf crop_mode)]%string in
  Returned (_send_json_response response 200).

(** The [try] block of lines 155-218. *)
Definition try_process (req : request) : outcome response :=
  if str_contains "multipart/form-data" (content_type req) then
    boundary <~ match nth_error (str_split (content_type req) "boundary=") 1 with
                | Some b => Returned (encode b)
                | None => Failed (Builtin IndexError)
                end ;;
    body <~ read_body req ;;
    let parts := PyBytes.split body (encode "--" ++ boundary) in
    '(image_data, crop_mode) <~ parts_loop parts None "center" ;;
    match image_data with
    | None => Returned (_send_json_error "Kein Bild gefunden" 400)
    | Some image_data => process_and_respond image_data (JStr crop_mode)
    end
  else if str_contains "application/json" (content_type req) then
    body <~ read_body req ;;
    data <~ json_loads body ;;
    image_b64 <~ json_get data "image" (JStr EmptyString) ;;
    image_data <~ decode_image image_b64 ;;
    crop_mode <~ json_get data "mode" (JStr "center") ;;
    process_and_respond image_data crop_mode
  else Returned (_send_json_error "Ungültiger Content-Type" 400).

(** Lines 152-221: [_handle_process], with the handler of line 220. *)
Definition _handle_process (req : request) : response :=
  match try_process req with
  | Returned r => r
  | Failed e =>
      _send_json_error ("Fehler bei der Verarbeitung: " ++ exception_text e)
        500
  end.

(** Lines 144-150: [do_POST]. *)
Definition do_POST (req : request) : handled :=
  if (path req =? "/api/process")%string
  then Responded (_handle_process req)
  else ErrorPage 404 "Endpoint nicht gefunden".

End Handler.

(** ** A test server

    A small instance of [Runtime] to run the handler on.  Its JSON reader
    takes what follows an opening brace as the text of the image member and
    reads an opening bracket as an empty list; its JSON writer gives the
    image or the error member of the answer; its base64 is the identity. *)

Module TestServer.

Definition loads (body : bytes) : outcome json :=
  match body with
  | x7b :: rest =>
      Returned (JObj [("image"%string, JStr (string_of_list_byte rest))])
  | x5b :: _ => Returned (JArr [])
  | _ => Failed JSONDecodeError
  end.

Definition dumps (data : json) : string :=
  match data with
  | JObj ((_, JBool true) :: (_, JStr image) :: _) => image
  | JObj ((_, JBool false) :: (_, JStr message) :: _) => message
  | _ => "null"%string
  end.

Definition runtime : Runtime :=
  {| json_loads := loads;
     json_dumps := dumps;
     b64decode := fun s => Returned (encode s);
     b64encode := string_of_list_byte;
     exception_text := fun e =>
       match e with
       | Builtin IndexError => "list index out of range"%string
       | _ => "error"%string
       end |}.

Definition image_header : bytes :=
  encode "Content-Disposition: form-data; " ++ field_name "image".

Definition mode_header : bytes :=
  encode "Content-Disposition: form-data; " ++ field_name "mode".

(** A POST to /api/process with the boundary XYZ. *)
Definition post (body : bytes) : request :=
  mkRequest "/api/process" "multipart/form-data; boundary=XYZ"
    (Returned body).

(** A body with the image field only, and one with both fields. *)
Definition image_only (data : bytes) : bytes :=
  boundary_line "XYZ" ++ form_field image_header data
  ++ boundary_line "XYZ" ++ closing.

Definition upload (data mode : bytes) : bytes :=
  boundary_line "XYZ" ++ form_field image_header data
  ++ boundary_line "XYZ" ++ form_field mode_header mode
  ++ boundary_line "XYZ" ++ closing.

(** A JSON POST. *)
Definition post_json (body : bytes) : request :=
  mkRequest "/api/process" "application/json" (Returned body).

End TestServer.

(** ** Notions used in the proofs about doubles *)

(** A shift record is exact when neither its round bit nor its sticky bit is
    set. *)
Definition exact_rec (mrs : shr_record) : bool :=
  negb (shr_r mrs) && negb (shr_s mrs).

(** What [n] right shifts do to a shift record: the mantissa is divided by
    2^n, and an exact record stays exact when nothing is shifted out. *)
Definition shr_inv (n : Z) (a b : shr_record) : Prop :=
  0 <= shr_m a ->
  shr_m b = shr_m a / 2 ^ n /\
  (exact_rec a = true -> shr_m a mod 2 ^ n = 0 -> exact_rec b = true).

(** The value of a positive double with mantissa [m] and exponent [e], as an
    integer multiple of 2^-128; all doubles met here have exponents far
    above -128. *)
Definition bias : Z := 128.
Definition val (m : positive) (e : Z) : Z := Zpos m * 2 ^ (e + bias).
Definition canon (m : positive) (e : Z) : Prop :=
  2 ^ 52 <= Zpos m < 2 ^ 53 /\ - bias <= e <= bias.

(** * Properties

    ** Binary64 arithmetic on the values the transform meets *)

(** [digits2_pos p] is the number of binary digits of [p]. *)
Lemma digits2_pos_bounds (p : positive) :
  2 ^ (Zpos (digits2_pos p) - 1) <= Zpos p < 2 ^ Zpos (digits2_pos p).
Proof.
  induction p as [p IH | p IH |]; cbn [digits2_pos].
  - rewrite Pos2Z.inj_succ.
    replace (Z.succ (Zpos (digits2_pos p)) - 1) with (Z.succ (Zpos (digits2_pos p) - 1)) by lia.
    rewrite !Z.pow_succ_r by lia. lia.
  - rewrite Pos2Z.inj_succ.
    replace (Z.succ (Zpos (digits2_pos p)) - 1) with (Z.succ (Zpos (digits2_pos p) - 1)) by lia.
    rewrite !Z.pow_succ_r by lia. lia.
  - cbn. lia.
Qed.

Lemma digits2_pos_unique (p : positive) (d : Z) :
  2 ^ (d - 1) <= Zpos p < 2 ^ d -> 0 < d -> Zpos (digits2_pos p) = d.
Proof.
  intros [Hlo Hhi] Hd.
  pose proof (digits2_pos_bounds p) as [Blo Bhi].
  set (c := Zpos (digits2_pos p)) in *.
  assert (Hc : 0 < c) by (unfold c; lia).
  destruct (Z.lt_trichotomy c d) as [Hlt | [Heq | Hgt]]; [exfalso | exact Heq | exfalso].
  - assert (2 ^ c <= 2 ^ (d - 1)) by (apply Z.pow_le_mono_r; lia). lia.
  - assert (2 ^ d <= 2 ^ (c - 1)) by (apply Z.pow_le_mono_r; lia). lia.
Qed.

(** *** Right shifts of a mantissa with its round and sticky bits *)

Lemma shr_1_inv (a : shr_record) : shr_inv 1 a (shr_1 a).
Proof.
  destruct a as [m r s]. unfold shr_inv, exact_rec. cbn [shr_m shr_r shr_s].
  intros Hm. change (2 ^ 1) with 2.
  destruct m as [| p | p]; [ | | lia].
  - cbn. split; [reflexivity|]. intros H _.
    destruct r, s; cbn in *; congruence.
  - destruct p as [p | p |]; cbn [shr_1 shr_m shr_r shr_s].
    + split.
      * rewrite Pos2Z.inj_xI. apply Z.div_unique with (r := 1); lia.
      * intros _ H. rewrite Pos2Z.inj_xI in H.
        rewrite Z.add_comm, Z.mul_comm, Z.mod_add in H by lia. discriminate H.
    + split.
      * rewrite Pos2Z.inj_xO. apply Z.div_unique with (r := 0); lia.
      * intros H _. destruct r, s; cbn in *; congruence.
    + split; [reflexivity|]. intros _ H. discriminate H.
Qed.

Lemma shr_inv_trans (n k : Z) (a b c : shr_record) :
  0 <= n -> 0 <= k -> shr_inv n a b -> shr_inv k b c -> shr_inv (n + k) a c.
Proof.
  unfold shr_inv. intros Hn Hk Hab Hbc Ha.
  destruct (Hab Ha) as [Eb Xb].
  assert (Hb : 0 <= shr_m b).
  { rewrite Eb. apply Z.div_pos; [assumption | apply Z.pow_pos_nonneg; lia]. }
  destruct (Hbc Hb) as [Ec Xc].
  assert (P1 : 0 < 2 ^ n) by (apply Z.pow_pos_nonneg; lia).
  assert (P2 : 0 < 2 ^ k) by (apply Z.pow_pos_nonneg; lia).
  rewrite Z.pow_add_r by assumption.
  split.
  - rewrite Ec, Eb. apply Z.div_div; lia.
  - intros Xa Hmod.
    rewrite Z.rem_mul_r in Hmod by lia.
    pose proof (Z.mod_pos_bound (shr_m a) (2 ^ n) P1).
    pose proof (Z.mod_pos_bound (shr_m a / 2 ^ n) (2 ^ k) P2).
    assert (shr_m a mod 2 ^ n = 0) by nia.
    assert ((shr_m a / 2 ^ n) mod 2 ^ k = 0) by nia.
    apply Xc; [apply Xb; assumption | rewrite Eb; assumption].
Qed.

Lemma iter_pos_shr_inv (p : positive) :
  forall a, shr_inv (Zpos p) a (iter_pos shr_1 p a).
Proof.
  induction p as [p IH | p IH |]; intros a; cbn [iter_pos].
  - rewrite Pos2Z.inj_xI.
    replace (2 * Zpos p + 1) with (1 + Zpos p + Zpos p) by lia.
    eapply shr_inv_trans; [lia | lia | | apply IH].
    eapply shr_inv_trans; [lia | lia | apply shr_1_inv | apply IH].
  - rewrite Pos2Z.inj_xO.
    replace (2 * Zpos p) with (Zpos p + Zpos p) by lia.
    eapply shr_inv_trans; [lia | lia | apply IH | apply IH].
  - apply shr_1_inv.
Qed.

(** *** Rounding to 53 digits *)

Lemma pow52 : 2 ^ 52 = 4503599627370496.
Proof. reflexivity. Qed.

Lemma pow53 : 2 ^ 53 = 9007199254740992.
Proof. reflexivity. Qed.

(** A mantissa of [d >= 53] digits, in the normal range, loses its [d - 53]
    low digits. *)
Lemma shr_fexp_spec (mx : positive) (ex : Z) (l : location) (d : Z) :
  Zpos (digits2_pos mx) = d -> 53 <= d -> -1074 <= ex + d - 53 ->
  exists mrs,
    shr_fexp PyFloat.prec PyFloat.emax (Zpos mx) ex l = (mrs, ex + (d - 53)) /\
    shr_m mrs = Zpos mx / 2 ^ (d - 53) /\
    (l = loc_Exact -> Zpos mx mod 2 ^ (d - 53) = 0 -> exact_rec mrs = true).
Proof.
  intros Hd Hd53 Hex.
  unfold shr_fexp, fexp, emin, PyFloat.prec, PyFloat.emax. cbn [Zdigits2]. rewrite Hd.
  replace (Z.max (d + ex - 53) (3 - 1024 - 53) - ex) with (d - 53) by lia.
  assert (A0 : forall m, shr_m (shr_record_of_loc m l) = m)
    by (intros m; destruct l as [|[| |]]; reflexivity).
  assert (X0 : forall m, l = loc_Exact -> exact_rec (shr_record_of_loc m l) = true)
    by (intros m ->; reflexivity).
  destruct (d - 53) as [| n | n] eqn:En; [ | | lia].
  - exists (shr_record_of_loc (Zpos mx) l). cbn [shr].
    rewrite Z.add_0_r, A0, Z.pow_0_r, Z.div_1_r. auto.
  - exists (iter_pos shr_1 n (shr_record_of_loc (Zpos mx) l)). cbn [shr].
    split; [reflexivity|].
    destruct (iter_pos_shr_inv n (shr_record_of_loc (Zpos mx) l)) as [Em Xm].
    { rewrite A0. lia. }
    rewrite A0 in Em, Xm. split; [exact Em|].
    intros Hl Hmod. apply Xm; auto.
Qed.

Lemma round_nearest_even_exact (m : Z) (mrs : shr_record) :
  exact_rec mrs = true -> round_nearest_even m (loc_of_shr_record mrs) = m.
Proof.
  destruct mrs as [m' [|] [|]]; cbn; intros H; try discriminate H; reflexivity.
Qed.

Lemma round_nearest_even_range (m : Z) (l : location) :
  round_nearest_even m l = m \/ round_nearest_even m l = m + 1.
Proof.
  destruct l as [|[| |]]; cbn; auto. destruct (Z.even m); auto.
Qed.

(** Rounding a mantissa [mx] of [d >= 53] digits at exponent [ex]: the result
    is a normal double [M * 2^E], with [E = ex + t], that lies within one
    unit in the last place of the rounded value, and is that value when it
    is exact and fits in 53 digits. *)
Lemma binary_round_aux_spec (s : bool) (mx : positive) (ex : Z) (l : location) (d : Z) :
  Zpos (digits2_pos mx) = d -> 53 <= d ->
  -1074 <= ex + d - 53 -> ex + d - 53 < 971 ->
  exists M E t,
    binary_round_aux PyFloat.prec PyFloat.emax s (Zpos mx) ex l = S754_finite s M E /\
    2 ^ 52 <= Zpos M < 2 ^ 53 /\
    E = ex + t /\ d - 53 <= t <= d - 52 /\
    (Zpos M - 1) * 2 ^ t <= Zpos mx < (Zpos M + 1) * 2 ^ t /\
    (l = loc_Exact -> Zpos mx mod 2 ^ (d - 53) = 0 ->
     t = d - 53 /\ Zpos M * 2 ^ t = Zpos mx).
Proof.
  intros Hd Hd53 Hlo Hhi.
  destruct (shr_fexp_spec mx ex l d Hd Hd53 Hlo) as (mrs & E1 & Em & Ex1).
  unfold binary_round_aux. rewrite E1.
  set (n := d - 53) in *.
  assert (Pn : 0 < 2 ^ n) by (apply Z.pow_pos_nonneg; lia).
  pose proof (digits2_pos_bounds mx) as [Blo Bhi]. rewrite Hd in Blo, Bhi.
  replace (d - 1) with (52 + n) in Blo by lia.
  replace d with (53 + n) in Bhi by lia.
  rewrite Z.pow_add_r in Blo, Bhi by lia.
  set (m1 := Zpos mx / 2 ^ n) in *.
  assert (Hm1 : 2 ^ 52 <= m1 < 2 ^ 53).
  { unfold m1. split.
    - apply Z.div_le_lower_bound; lia.
    - apply Z.div_lt_upper_bound; lia. }
  assert (Hdm : m1 * 2 ^ n <= Zpos mx < (m1 + 1) * 2 ^ n).
  { unfold m1. pose proof (Z.div_mod (Zpos mx) (2 ^ n) ltac:(lia)).
    pose proof (Z.mod_pos_bound (Zpos mx) (2 ^ n) Pn). nia. }
  rewrite Em.
  set (M1 := round_nearest_even m1 (loc_of_shr_record mrs)).
  assert (HM1 : M1 = m1 \/ M1 = m1 + 1) by apply round_nearest_even_range.
  assert (HX : l = loc_Exact -> Zpos mx mod 2 ^ n = 0 -> M1 = m1).
  { intros Hl Hmod. apply round_nearest_even_exact. auto. }
  rewrite pow52, pow53 in *.
  destruct M1 as [| P1 | P1] eqn:EM1; [lia | | lia].
  destruct (Z_lt_dec (Zpos P1) 9007199254740992) as [Hsmall | Hbig].
  - (* the rounded mantissa still has 53 digits *)
    assert (D1 : Zpos (digits2_pos P1) = 53).
    { apply digits2_pos_unique; [| lia]. change (53 - 1) with 52.
      rewrite pow52, pow53. lia. }
    destruct (shr_fexp_spec P1 (ex + n) loc_Exact 53 D1 ltac:(lia) ltac:(lia))
      as (mrs2 & E2 & Em2 & _).
    rewrite E2, Em2. change (53 - 53) with 0.
    rewrite Z.pow_0_r, Z.div_1_r, Z.add_0_r.
    replace (ex + n <=? PyFloat.emax - PyFloat.prec) with true
      by (symmetry; apply Z.leb_le; unfold PyFloat.emax, PyFloat.prec; lia).
    exists P1, (ex + n), n.
    split; [reflexivity|]. split; [lia|]. split; [reflexivity|].
    split; [lia|]. split; [nia|].
    intros Hl Hmod. split; [reflexivity|].
    specialize (HX Hl Hmod).
    pose proof (Z.div_mod (Zpos mx) (2 ^ n) ltac:(lia)) as Hdiv.
    fold m1 in Hdiv. nia.
  - (* rounding carried into a 54th digit *)
    assert (EP : Zpos P1 = 9007199254740992) by lia.
    assert (D1 : Zpos (digits2_pos P1) = 54).
    { apply digits2_pos_unique; [| lia]. rewrite EP. split; [reflexivity|reflexivity]. }
    destruct (shr_fexp_spec P1 (ex + n) loc_Exact 54 D1 ltac:(lia) ltac:(lia))
      as (mrs2 & E2 & Em2 & _).
    rewrite E2, Em2, EP. change (54 - 53) with 1.
    change (9007199254740992 / 2 ^ 1) with (Zpos 4503599627370496).
    cbv iota beta.
    replace (ex + n + 1 <=? PyFloat.emax - PyFloat.prec) with true
      by (symmetry; apply Z.leb_le; unfold PyFloat.emax, PyFloat.prec; lia).
    exists 4503599627370496%positive, (ex + n + 1), (n + 1).
    rewrite Z.pow_add_r by lia. change (2 ^ 1) with 2.
    split; [reflexivity|]. split; [lia|]. split; [lia|].
    split; [lia|]. split; [nia|].
    intros Hl Hmod. specialize (HX Hl Hmod). lia.
Qed.

(** *** Powers of two *)

Lemma pow2_pos (x : Z) : 0 <= x -> 0 < 2 ^ x.
Proof. intros; apply Z.pow_pos_nonneg; lia. Qed.

(** Two products by powers of two that are equal: the smaller factor has the
    larger power. *)
Lemma pow2_align (A B x y : Z) :
  0 <= x -> 0 <= y -> 0 < A < 2 * B -> A * 2 ^ x = B * 2 ^ y ->
  y <= x /\ A * 2 ^ (x - y) = B.
Proof.
  intros Hx Hy HA Heq.
  assert (Hyx : y <= x).
  { destruct (Z_le_gt_dec y x) as [H | H]; [exact H | exfalso].
    replace y with (x + 1 + (y - x - 1)) in Heq by lia.
    rewrite !Z.pow_add_r in Heq by lia. change (2 ^ 1) with 2 in Heq.
    pose proof (pow2_pos x Hx). pose proof (pow2_pos (y - x - 1) ltac:(lia)).
    assert (2 * B * 2 ^ x <= B * (2 ^ x * 2 * 2 ^ (y - x - 1))) by nia.
    nia. }
  split; [exact Hyx|].
  replace x with (x - y + y) in Heq at 1 by lia.
  rewrite Z.pow_add_r in Heq by lia.
  pose proof (pow2_pos y Hy). nia.
Qed.

(** A number has one decomposition into a 53-digit mantissa and a power of
    two. *)
Lemma canon_mul_unique (M M0 t k : Z) :
  2 ^ 52 <= M < 2 ^ 53 -> 2 ^ 52 <= M0 < 2 ^ 53 -> 0 <= t -> 0 <= k ->
  M * 2 ^ t = M0 * 2 ^ k -> M = M0 /\ t = k.
Proof.
  intros HM HM0 Ht Hk Heq. rewrite pow52, pow53 in *.
  destruct (pow2_align M M0 t k Ht Hk ltac:(lia) Heq) as [H1 E1].
  symmetry in Heq.
  destruct (pow2_align M0 M k t Hk Ht ltac:(lia) Heq) as [H2 E2].
  assert (t = k) by lia. subst k. rewrite Z.sub_diag, Z.pow_0_r in E1. lia.
Qed.

Lemma digits_of_scaled (M0 : Z) (k : Z) (p : positive) :
  2 ^ 52 <= M0 < 2 ^ 53 -> 0 <= k -> Zpos p = M0 * 2 ^ k ->
  Zpos (digits2_pos p) = 53 + k.
Proof.
  intros HM Hk Hp. apply digits2_pos_unique; [| lia].
  replace (53 + k - 1) with (52 + k) by lia.
  rewrite !Z.pow_add_r by lia. pose proof (pow2_pos k Hk). nia.
Qed.

(** Rounding a representable value is the identity. *)
Lemma binary_round_aux_exact (s : bool) (mx : positive) (ex : Z) (M0 : positive) (k : Z) :
  2 ^ 52 <= Zpos M0 < 2 ^ 53 -> 0 <= k -> Zpos mx = Zpos M0 * 2 ^ k ->
  -1074 <= ex + k < 971 ->
  binary_round_aux PyFloat.prec PyFloat.emax s (Zpos mx) ex loc_Exact = S754_finite s M0 (ex + k).
Proof.
  intros HM Hk Hmx Hex.
  pose proof (digits_of_scaled _ _ _ HM Hk Hmx) as Hd.
  destruct (binary_round_aux_spec s mx ex loc_Exact (53 + k) Hd ltac:(lia) ltac:(lia) ltac:(lia))
    as (M & E & t & Eq & HMr & HE & Ht & _ & Hexact).
  replace (53 + k - 53) with k in Hexact by lia.
  destruct (Hexact eq_refl) as [Htk HMk].
  { rewrite Hmx. apply Z.mod_mul. pose proof (pow2_pos k Hk). lia. }
  subst t. rewrite Hmx in HMk.
  pose proof (pow2_pos k Hk).
  assert (Zpos M = Zpos M0) by nia.
  rewrite Eq, HE. congruence.
Qed.

(** *** Conversion, division, multiplication, comparison, truncation *)

Lemma pos_iter_xO (p k : positive) :
  Zpos (Pos.iter xO p k) = Zpos p * 2 ^ Zpos k.
Proof.
  induction k as [| k IH] using Pos.peano_ind.
  - cbn [Pos.iter]. rewrite Pos2Z.inj_xO. change (2 ^ 1) with 2. lia.
  - rewrite Pos.iter_succ, Pos2Z.inj_xO, IH, Pos2Z.inj_succ, Z.pow_succ_r by lia. lia.
Qed.

(** [float(n)] for an integer that is a double. *)
Lemma binary_normalize_int (n : Z) :
  1 <= n < 2 ^ 53 ->
  exists M E,
    binary_normalize PyFloat.prec PyFloat.emax n 0 false = S754_finite false M E /\
    2 ^ 52 <= Zpos M < 2 ^ 53 /\ -52 <= E <= 0 /\ Zpos M = n * 2 ^ (- E).
Proof.
  intros Hn. destruct n as [| p | p]; [lia | | lia].
  cbn [binary_normalize]. unfold binary_round.
  pose proof (digits2_pos_bounds p) as [Blo Bhi].
  set (d := Zpos (digits2_pos p)) in *.
  assert (Hd : 1 <= d <= 53).
  { split; [unfold d; lia|].
    destruct (Z_le_gt_dec d 53) as [H | H]; [exact H | exfalso].
    assert (2 ^ 53 <= 2 ^ (d - 1)) by (apply Z.pow_le_mono_r; lia). lia. }
  unfold fexp, emin, PyFloat.prec, PyFloat.emax.
  replace (Z.max (d + 0 - 53) (3 - 1024 - 53)) with (d - 53) by lia.
  unfold shl_align. rewrite Z.sub_0_r.
  assert (Hsc : Zpos p * 2 ^ (53 - d) = Zpos p * 2 ^ (53 - d)) by reflexivity.
  assert (Hcanon : 2 ^ 52 <= Zpos p * 2 ^ (53 - d) < 2 ^ 53).
  { assert (E52 : 2 ^ 52 = 2 ^ (d - 1) * 2 ^ (53 - d))
      by (rewrite <- Z.pow_add_r by lia; f_equal; lia).
    assert (E53 : 2 ^ 53 = 2 ^ d * 2 ^ (53 - d))
      by (rewrite <- Z.pow_add_r by lia; f_equal; lia).
    rewrite E52, E53.
    pose proof (pow2_pos (53 - d) ltac:(lia)). nia. }
  destruct (d - 53) as [| q | q] eqn:Eq; [ | lia | ].
  - replace (53 - d) with 0 in Hcanon by lia.
    rewrite Z.pow_0_r, Z.mul_1_r in Hcanon.
    exists p, 0. split.
    + change 0 with (0 + 0) at 2.
      apply (binary_round_aux_exact false p 0 p 0); [exact Hcanon | lia | | lia].
      rewrite Z.pow_0_r. lia.
    + split; [exact Hcanon|]. split; [lia|]. cbn. lia.
  - replace (53 - d) with (Zpos q) in Hcanon by lia.
    rewrite <- pos_iter_xO in Hcanon.
    exists (Pos.iter xO p q), (Zneg q). split.
    + replace (Zneg q) with (Zneg q + 0) at 2 by lia.
      apply binary_round_aux_exact; [exact Hcanon | lia | | lia].
      rewrite Z.pow_0_r. lia.
    + split; [exact Hcanon|]. split; [lia|].
      rewrite pos_iter_xO. reflexivity.
Qed.

Lemma new_location_0 (nb : Z) : new_location nb 0 = loc_Exact.
Proof.
  unfold new_location, new_location_even, new_location_odd.
  destruct (Z.even nb); reflexivity.
Qed.

(** Division of two normal doubles: the result is within one unit in the last
    place of the quotient, and is the quotient when that is a double. *)
Lemma SFdiv_spec (m1 m2 : positive) (e1 e2 : Z) :
  2 ^ 52 <= Zpos m1 < 2 ^ 53 -> 2 ^ 52 <= Zpos m2 < 2 ^ 53 ->
  -64 <= e1 <= 64 -> -64 <= e2 <= 64 ->
  exists M E t,
    SFdiv PyFloat.prec PyFloat.emax (S754_finite false m1 e1) (S754_finite false m2 e2)
      = S754_finite false M E /\
    2 ^ 52 <= Zpos M < 2 ^ 53 /\
    E = e1 - e2 - 53 + t /\ 0 <= t <= 2 /\
    (Zpos M - 1) * 2 ^ t * Zpos m2 <= Zpos m1 * 2 ^ 53
      < (Zpos M + 1) * 2 ^ t * Zpos m2 /\
    (forall M0 k, 2 ^ 52 <= M0 < 2 ^ 53 -> 0 <= k ->
       M0 * 2 ^ k * Zpos m2 = Zpos m1 * 2 ^ 53 -> Zpos M = M0 /\ t = k).
Proof.
  intros H1 H2 He1 He2.
  unfold SFdiv, SFdiv_core_binary. cbn [Zdigits2 xorb].
  rewrite (digits2_pos_unique m1 53), (digits2_pos_unique m2 53)
    by (change (53 - 1) with 52; lia).
  unfold fexp, emin, PyFloat.prec, PyFloat.emax.
  replace (Z.min (Z.max (53 + e1 - (53 + e2) - 53) (3 - 1024 - 53)) (e1 - e2))
    with (e1 - e2 - 53) by lia.
  replace (e1 - e2 - (e1 - e2 - 53)) with 53 by lia.
  cbv iota.
  rewrite Z.shiftl_mul_pow2 by lia.
  set (N := Zpos m1 * 2 ^ 53).
  pose proof (Z.div_mod N (Zpos m2) ltac:(lia)) as Hdm.
  pose proof (Z.mod_pos_bound N (Zpos m2) ltac:(lia)) as Hmb.
  unfold Z.modulo, Z.div in Hdm, Hmb.
  destruct (Z.div_eucl N (Zpos m2)) as [q r].
  assert (Hq : 2 ^ 52 <= q < 2 ^ 54).
  { unfold N in Hdm. change (2 ^ 54) with (2 * 2 ^ 53).
    rewrite pow52, pow53 in *. nia. }
  destruct q as [| q | q]; [rewrite pow52 in Hq; lia | | lia].
  set (d := Zpos (digits2_pos q)).
  assert (Hd : 53 <= d <= 54).
  { pose proof (digits2_pos_bounds q) as [Blo Bhi]. fold d in Blo, Bhi.
    split.
    - destruct (Z_le_gt_dec 53 d) as [H | H]; [exact H | exfalso].
      assert (2 ^ d <= 2 ^ 52) by (apply Z.pow_le_mono_r; lia). lia.
    - destruct (Z_le_gt_dec d 54) as [H | H]; [exact H | exfalso].
      assert (2 ^ 54 <= 2 ^ (d - 1)) by (apply Z.pow_le_mono_r; lia). lia. }
  destruct (binary_round_aux_spec false q (e1 - e2 - 53) (new_location (Zpos m2) r) d
              eq_refl ltac:(lia) ltac:(lia) ltac:(lia))
    as (M & E & t & Eq & HM & HE & Ht & Hbr & Hexact).
  exists M, E, t.
  assert (Pt : 0 < 2 ^ t) by (apply pow2_pos; lia).
  split; [exact Eq|]. split; [exact HM|]. split; [exact HE|]. split; [lia|].
  split.
  { destruct Hbr as [Hb1 Hb2].
    assert (L1 : (Zpos M - 1) * 2 ^ t * Zpos m2 <= Zpos q * Zpos m2)
      by (apply Z.mul_le_mono_nonneg_r; lia).
    assert (L2 : (Zpos q + 1) * Zpos m2 <= (Zpos M + 1) * 2 ^ t * Zpos m2)
      by (apply Z.mul_le_mono_nonneg_r; lia).
    unfold N in Hdm. lia. }
  intros M0 k HM0 Hk Heq.
  assert (Pk : 0 < 2 ^ k) by (apply pow2_pos; lia).
  assert (Hqr : Zpos m2 * (M0 * 2 ^ k - Zpos q) = r) by (unfold N in Hdm; lia).
  assert (Hqk : Zpos q = M0 * 2 ^ k).
  { clear - Hqr Hmb. nia. }
  assert (Hr : r = 0) by (rewrite Hqk in Hqr; lia).
  destruct M0 as [| M0 | M0]; [rewrite pow52 in HM0; lia | | lia].
  pose proof (digits_of_scaled _ _ _ HM0 Hk Hqk) as Hdk. fold d in Hdk.
  destruct Hexact as [Htd HMq].
  { rewrite Hr. apply new_location_0. }
  { rewrite Hqk. replace (d - 53) with k by lia. apply Z.mod_mul. lia. }
  rewrite Hqk in HMq.
  apply canon_mul_unique; try assumption; lia.
Qed.

(** Multiplication of two normal doubles whose product is a double. *)
Lemma SFmul_exact (m1 m2 M0 : positive) (e1 e2 k : Z) :
  2 ^ 52 <= Zpos M0 < 2 ^ 53 -> 0 <= k ->
  Zpos m1 * Zpos m2 = Zpos M0 * 2 ^ k ->
  -1074 <= e1 + e2 + k < 971 ->
  SFmul PyFloat.prec PyFloat.emax (S754_finite false m1 e1) (S754_finite false m2 e2)
    = S754_finite false M0 (e1 + e2 + k).
Proof.
  intros HM Hk Heq Hex. unfold SFmul. cbn [xorb].
  apply binary_round_aux_exact; [assumption | assumption | | assumption].
  rewrite Pos2Z.inj_mul. exact Heq.
Qed.

(** Comparison of two positive normal doubles. *)
Lemma scaled_lt (a b P Q : Z) :
  0 < a -> a < 2 * b -> 0 < P -> 0 < Q -> a * P < b * (P * 2 * Q).
Proof.
  intros Ha Hab HP HQ.
  assert (a * P < 2 * b * P) by (apply Z.mul_lt_mono_pos_r; lia).
  assert (2 * b * P * 1 <= 2 * b * P * Q) by (apply Z.mul_le_mono_nonneg_l; nia).
  lia.
Qed.

Lemma SFltb_val (m1 m2 : positive) (e1 e2 : Z) :
  canon m1 e1 -> canon m2 e2 ->
  SFltb (S754_finite false m1 e1) (S754_finite false m2 e2)
    = (val m1 e1 <? val m2 e2).
Proof.
  intros [H1 B1] [H2 B2]. unfold SFltb, SFcompare, val, bias in *.
  rewrite pow52, pow53 in *.
  destruct (Z.compare_spec e1 e2) as [He | He | He].
  - subst e2. rewrite Pos.compare_cont_spec. cbn [Pos.switch_Eq].
    pose proof (pow2_pos (e1 + 128) ltac:(lia)).
    change (Pos.compare m1 m2) with (Z.compare (Zpos m1) (Zpos m2)).
    destruct (Z.compare_spec (Zpos m1) (Zpos m2)) as [Hm | Hm | Hm];
      symmetry; [apply Z.ltb_ge | apply Z.ltb_lt | apply Z.ltb_ge]; nia.
  - symmetry. apply Z.ltb_lt.
    replace (e2 + 128) with (e1 + 128 + 1 + (e2 - e1 - 1)) by lia.
    rewrite (Z.pow_add_r 2 (e1 + 128 + 1)), (Z.pow_add_r 2 (e1 + 128) 1) by lia.
    change (2 ^ 1) with 2.
    apply scaled_lt; try lia; apply pow2_pos; lia.
  - symmetry. apply Z.ltb_ge. apply Z.lt_le_incl.
    replace (e1 + 128) with (e2 + 128 + 1 + (e1 - e2 - 1)) by lia.
    rewrite (Z.pow_add_r 2 (e2 + 128 + 1)), (Z.pow_add_r 2 (e2 + 128) 1) by lia.
    change (2 ^ 1) with 2.
    apply scaled_lt; try lia; apply pow2_pos; lia.
Qed.

(** [int(f)] of a positive double. *)
Lemma to_int_val (m : positive) (e : Z) :
  - bias <= e ->
  (match e with
   | Z0 => Zpos m
   | Zpos p => Z.shiftl (Zpos m) e
   | Zneg p => Zpos m / 2 ^ Zpos p
   end) = val m e / 2 ^ bias.
Proof.
  intros He. unfold val, bias in *.
  pose proof (pow2_pos 128 ltac:(lia)) as HT.
  destruct e as [| p | p].
  - change (0 + 128) with 128. rewrite Z.div_mul by lia. reflexivity.
  - rewrite Z.shiftl_mul_pow2 by lia.
    rewrite Z.pow_add_r by lia. rewrite Z.mul_assoc, Z.div_mul by lia. reflexivity.
  - assert (E : 2 ^ 128 = 2 ^ Zpos p * 2 ^ (Zneg p + 128))
      by (rewrite <- Z.pow_add_r by lia; f_equal; lia).
    rewrite E.
    rewrite Z.div_mul_cancel_r; [reflexivity | | ].
    + pose proof (pow2_pos (Zpos p) ltac:(lia)). lia.
    + pose proof (pow2_pos (Zneg p + 128) ltac:(lia)). lia.
Qed.

(** *** The three float expressions of the transform *)

Lemma of_int_spec (n : Z) :
  1 <= n < 2 ^ 53 ->
  exists M E,
    PyFloat.of_int n = Ok (S754_finite false M E) /\
    2 ^ 52 <= Zpos M < 2 ^ 53 /\ -52 <= E <= 0 /\ Zpos M = n * 2 ^ (- E).
Proof.
  intros Hn. destruct (binary_normalize_int n Hn) as (M & E & Eq & HM & HE & Hv).
  exists M, E. unfold PyFloat.of_int.
  rewrite Eq. auto.
Qed.

(** [TARGET_RATIO] is 9 * 2^49 * 2^-53 = 0.5625. *)
Lemma TARGET_RATIO_eq :
  TARGET_RATIO = S754_finite false 5066549580791808 (-53).
Proof. reflexivity. Qed.

(** The double of an integer below 2^31 has an exponent of at most -22. *)
Lemma small_exponent (n M E : Z) :
  1 <= n < 2 ^ 31 -> 2 ^ 52 <= M -> E <= 0 -> M = n * 2 ^ (- E) -> E <= -22.
Proof.
  intros Hn HM HE Hv.
  destruct (Z_le_gt_dec E (-22)) as [H | H]; [exact H | exfalso].
  assert (2 ^ (- E) <= 2 ^ 21) by (apply Z.pow_le_mono_r; lia).
  pose proof (pow2_pos (- E) ltac:(lia)).
  change (2 ^ 31) with 2147483648 in Hn. change (2 ^ 21) with 2097152 in H0.
  rewrite pow52 in HM. nia.
Qed.

(** [int(h * TARGET_RATIO)] *)
Lemma mul_ratio_to_int (h : Z) :
  1 <= h < 2 ^ 31 ->
  (scaled <- PyFloat.mul_int_float h TARGET_RATIO ;; PyFloat.to_int scaled)
    = Ok (9 * h / 16).
Proof.
  intros Hh.
  assert (Hh53 : 1 <= h < 2 ^ 53)
    by (change (2 ^ 31) with 2147483648 in Hh; rewrite pow53; lia).
  destruct (of_int_spec h Hh53) as (m1 & e1 & Eq1 & Hm1 & He1 & Hv1).
  assert (H9 : 1 <= 9 * h < 2 ^ 53)
    by (change (2 ^ 31) with 2147483648 in Hh; rewrite pow53; lia).
  destruct (binary_normalize_int (9 * h) H9) as (M9 & E9 & _ & HM9 & HE9 & Hv9).
  unfold PyFloat.mul_int_float. rewrite Eq1, TARGET_RATIO_eq. cbn [bind].
  set (tr := 5066549580791808%positive).
  assert (Htr : Zpos tr = 9 * 2 ^ 49) by reflexivity.
  assert (P1 : 0 < 2 ^ (- e1)) by (apply pow2_pos; lia).
  assert (P9 : 0 < 2 ^ (- E9)) by (apply pow2_pos; lia).
  assert (Hal : - E9 <= 49 - e1 /\ Zpos M9 * 2 ^ (49 - e1 - - E9) = Zpos m1 * Zpos tr).
  { apply pow2_align; [lia | lia | rewrite pow52, pow53 in *; lia | ].
    rewrite Hv9, Hv1, Htr.
    replace (49 - e1) with (49 + - e1) by lia.
    rewrite Z.pow_add_r by lia. ring. }
  destruct Hal as [Hk Hprod].
  rewrite (SFmul_exact m1 tr M9 e1 (-53) (49 - e1 - - E9)); try lia.
  replace (e1 + -53 + (49 - e1 - - E9)) with (E9 - 4) by lia.
  unfold PyFloat.to_int. f_equal.
  rewrite to_int_val by (unfold bias; lia).
  unfold val, bias. rewrite Hv9.
  replace (2 ^ 128) with (16 * 2 ^ 124) by reflexivity.
  replace (2 ^ (E9 - 4 + 128)) with (2 ^ (E9 + 124)) by (f_equal; lia).
  replace (9 * h * 2 ^ (- E9) * 2 ^ (E9 + 124)) with (9 * h * 2 ^ 124).
  - rewrite Z.div_mul_cancel_r; [reflexivity | lia | ].
    pose proof (pow2_pos 124 ltac:(lia)). lia.
  - assert (E : 2 ^ (- E9) * 2 ^ (E9 + 124) = 2 ^ 124)
      by (rewrite <- Z.pow_add_r by lia; f_equal; lia).
    rewrite <- E. ring.
Qed.

(** A mantissa [M] in units of [1/S] within one unit of [16 w / 9], and equal
    to it when that is an integer, truncates to [16 w / 9] rounded down. *)
Lemma trunc_quot (M S w : Z) :
  10 <= S -> 0 < w ->
  9 * (M - 1) <= 16 * w * S < 9 * (M + 1) ->
  ((16 * w) mod 9 = 0 -> M = 16 * w / 9 * S) ->
  M / S = 16 * w / 9.
Proof.
  intros HS Hw Hbr Hexact.
  pose proof (Z.div_mod (16 * w) 9 ltac:(lia)) as Hdm.
  pose proof (Z.mod_pos_bound (16 * w) 9 ltac:(lia)) as Hmb.
  set (F := 16 * w / 9) in *. set (rho := (16 * w) mod 9) in *.
  destruct (Z.eq_dec rho 0) as [H0 | H0].
  - rewrite (Hexact H0). apply Z.div_mul. lia.
  - symmetry. apply Z.div_unique with (r := M - F * S); [| lia].
    assert (E : 16 * w * S = 9 * (F * S) + rho * S) by (rewrite Hdm; ring).
    assert (1 * S <= rho * S) by (apply Z.mul_le_mono_nonneg_r; lia).
    assert (rho * S <= 8 * S) by (apply Z.mul_le_mono_nonneg_r; lia).
    lia.
Qed.

Lemma to_int_neg (M : positive) (E : Z) :
  E < 0 -> PyFloat.to_int (S754_finite false M E) = Ok (Zpos M / 2 ^ (- E)).
Proof.
  intros HE. destruct E as [| p | p]; [lia | lia | reflexivity].
Qed.

(** [int(w / TARGET_RATIO)] *)
Lemma div_ratio_to_int (w : Z) :
  1 <= w < 2 ^ 31 ->
  (scaled <- PyFloat.truediv_int_float w TARGET_RATIO ;; PyFloat.to_int scaled)
    = Ok (16 * w / 9).
Proof.
  intros Hw.
  assert (Hw53 : 1 <= w < 2 ^ 53)
    by (change (2 ^ 31) with 2147483648 in Hw; rewrite pow53; lia).
  destruct (of_int_spec w Hw53) as (m1 & e1 & Eq1 & Hm1 & He1 & Hv1).
  assert (He1' : e1 <= -22) by (apply (small_exponent w (Zpos m1)); lia).
  unfold PyFloat.truediv_int_float. rewrite TARGET_RATIO_eq. cbn [PyFloat.is_zero].
  rewrite Eq1. cbn [bind].
  set (tr := 5066549580791808%positive).
  assert (Htr : Zpos tr = 9 * 2 ^ 49) by reflexivity.
  assert (Htr' : 2 ^ 52 <= Zpos tr < 2 ^ 53) by (split; [discriminate | reflexivity]).
  destruct (SFdiv_spec m1 tr e1 (-53) Hm1 Htr' ltac:(lia) ltac:(lia))
    as (M & E & t & Eq & HM & HE & Ht & Hbr & Hexact).
  rewrite Eq.
  replace (e1 - -53 - 53 + t) with (e1 + t) in HE by lia.
  rewrite to_int_neg by lia. f_equal.
  assert (P49 : 0 < 2 ^ 49) by (apply pow2_pos; lia).
  assert (Pt : 0 < 2 ^ t) by (apply pow2_pos; lia).
  set (S := 2 ^ (- E)).
  assert (HS : 2 ^ (- e1) = S * 2 ^ t).
  { unfold S. rewrite <- Z.pow_add_r by lia. f_equal. lia. }
  assert (HS20 : 10 <= S).
  { unfold S. assert (2 ^ 20 <= 2 ^ (- E)) by (apply Z.pow_le_mono_r; lia).
    change (2 ^ 20) with 1048576 in H. lia. }
  rewrite Hv1, HS, Htr in Hbr, Hexact.
  replace (2 ^ 53) with (16 * 2 ^ 49) in Hbr, Hexact by reflexivity.
  apply trunc_quot; [exact HS20 | lia | | ].
  - assert (B1 : 9 * (Zpos M - 1) * (2 ^ t * 2 ^ 49) <= 16 * w * S * (2 ^ t * 2 ^ 49)) by lia.
    assert (B2 : 16 * w * S * (2 ^ t * 2 ^ 49) < 9 * (Zpos M + 1) * (2 ^ t * 2 ^ 49)) by lia.
    assert (PP : 0 < 2 ^ t * 2 ^ 49) by lia.
    apply Z.mul_le_mono_pos_r in B1; [| exact PP].
    apply Z.mul_lt_mono_pos_r in B2; [| exact PP]. lia.
  - intros Hrho.
    pose proof (Z.div_mod (16 * w) 9 ltac:(lia)) as Hdm. rewrite Hrho in Hdm.
    set (F := 16 * w / 9) in *.
    assert (HF : 1 <= F < 2 ^ 53)
      by (change (2 ^ 31) with 2147483648 in Hw; rewrite pow53; lia).
    destruct (binary_normalize_int F HF) as (MF & EF & _ & HMF & HEF & HvF).
    assert (P1 : 0 < 2 ^ (- e1)) by (apply pow2_pos; lia).
    assert (PF : 0 < 2 ^ (- EF)) by (apply pow2_pos; lia).
    assert (Hal : - EF <= - e1 /\ Zpos MF * 2 ^ (- e1 - - EF) = F * 2 ^ (- e1)).
    { apply pow2_align; [lia | lia | | rewrite HvF; ring].
      assert (9 * (F * 2 ^ (- e1)) = 16 * Zpos m1) by (rewrite Hv1; lia).
      rewrite pow52, pow53 in *. lia. }
    destruct Hal as [Hk Hprod].
    destruct (Hexact (Zpos MF) (- e1 - - EF) HMF ltac:(lia)) as [EM Et].
    { rewrite Hprod. rewrite <- HS. lia. }
    rewrite EM, HvF. unfold S. do 2 f_equal. lia.
Qed.

(** A quotient [M * c] of [w] by [h], in units of [1/(16 C)], within one unit
    in the last place [c] of [w / h] and exact when [w / h] is 9/16, is above
    9/16 exactly when [w / h] is. *)
Lemma ratio_decision (M c h w C : Z) :
  2 ^ 52 <= M < 2 ^ 53 -> 0 < c -> 1 <= h < 2 ^ 31 -> 1 <= w -> 0 < C ->
  (M - 1) * c * h <= 16 * w * C < (M + 1) * c * h ->
  (16 * w = 9 * h -> M * c = 9 * C) ->
  (9 * C < M * c <-> 9 * h < 16 * w).
Proof.
  intros HM Hc Hh Hw HC [Hlo Hhi] Hexact.
  rewrite pow52, pow53 in HM. change (2 ^ 31) with 2147483648 in Hh.
  set (X := c * h) in *.
  assert (HX : 0 < X) by (unfold X; nia).
  replace ((M - 1) * c * h) with ((M - 1) * X) in Hlo by (unfold X; ring).
  replace ((M + 1) * c * h) with ((M + 1) * X) in Hhi by (unfold X; ring).
  assert (HXc : X < 2147483648 * c) by (unfold X; nia).
  split.
  - (* the quotient rounds above 9/16 *)
    intros Hgt.
    destruct (Z_lt_ge_dec (9 * h) (16 * w)) as [H | H]; [exact H | exfalso].
    destruct (Z.eq_dec (16 * w) (9 * h)) as [He | Hne].
    + specialize (Hexact He). lia.
    + assert (H1 : 16 * w * C <= (9 * h - 1) * C)
        by (apply Z.mul_le_mono_nonneg_r; lia).
      assert (H2 : 9 * C * h < M * c * h)
        by (apply Z.mul_lt_mono_pos_r; lia).
      replace (M * c * h) with (M * X) in H2 by (unfold X; ring).
      (* C < X, while (M - 1) * X <= 9 * h * C *)
      assert (H3 : C < X) by lia.
      assert (H4 : 4503599627370495 * X <= (M - 1) * X)
        by (apply Z.mul_le_mono_nonneg_r; lia).
      assert (H5 : h * C <= 2147483647 * C)
        by (apply Z.mul_le_mono_nonneg_r; lia).
      lia.
  - intros Hlt.
    destruct (Z_lt_ge_dec (9 * C) (M * c)) as [H | H]; [exact H | exfalso].
    assert (H1 : (9 * h + 1) * C <= 16 * w * C)
      by (apply Z.mul_le_mono_nonneg_r; lia).
    assert (H2 : M * c * h <= 9 * C * h)
      by (apply Z.mul_le_mono_nonneg_r; lia).
    replace (M * c * h) with (M * X) in H2 by (unfold X; ring).
    assert (H3 : C < X) by lia.
    assert (H4 : 4503599627370496 * X <= M * X)
      by (apply Z.mul_le_mono_nonneg_r; lia).
    assert (H5 : h * C <= 2147483647 * C)
      by (apply Z.mul_le_mono_nonneg_r; lia).
    lia.
Qed.

(** [orig_width / orig_height > TARGET_RATIO] *)
Lemma ratio_gt (w h : Z) :
  1 <= w < 2 ^ 31 -> 1 <= h < 2 ^ 31 ->
  exists r,
    PyFloat.truediv_int w h = Ok r /\
    PyFloat.gt r TARGET_RATIO = (9 * h <? 16 * w).
Proof.
  intros Hw Hh.
  assert (Hw53 : 1 <= w < 2 ^ 53)
    by (change (2 ^ 31) with 2147483648 in Hw; rewrite pow53; lia).
  assert (Hh53 : 1 <= h < 2 ^ 53)
    by (change (2 ^ 31) with 2147483648 in Hh; rewrite pow53; lia).
  destruct (of_int_spec w Hw53) as (m1 & e1 & Eq1 & Hm1 & He1 & Hv1).
  destruct (of_int_spec h Hh53) as (m2 & e2 & Eq2 & Hm2 & He2 & Hv2).
  destruct (SFdiv_spec m1 m2 e1 e2 Hm1 Hm2 ltac:(lia) ltac:(lia))
    as (M & E & t & Eq & HM & HE & Ht & Hbr & Hexact).
  unfold PyFloat.truediv_int.
  replace (h =? 0) with false by (symmetry; apply Z.eqb_neq; lia).
  rewrite Eq1, Eq2. cbn [bind].
  rewrite Eq. eexists; split; [reflexivity|].
  unfold PyFloat.gt. rewrite TARGET_RATIO_eq.
  set (tr := 5066549580791808%positive).
  assert (Htr : Zpos tr = 9 * 2 ^ 49) by reflexivity.
  assert (Htr' : 2 ^ 52 <= Zpos tr < 2 ^ 53) by (split; [discriminate | reflexivity]).
  rewrite SFltb_val by (split; [assumption | unfold bias; lia]).
  unfold val, bias.
  change (-53 + 128) with 75.
  set (c := 2 ^ (E + 128)).
  assert (Pc : 0 < c) by (apply pow2_pos; lia).
  assert (P1 : 0 < 2 ^ (- e1)) by (apply pow2_pos; lia).
  assert (P2 : 0 < 2 ^ (- e2)) by (apply pow2_pos; lia).
  assert (Pt : 0 < 2 ^ t) by (apply pow2_pos; lia).
  assert (P124 : 0 < 2 ^ 124) by (apply pow2_pos; lia).
  assert (Hc : 2 ^ t * 2 ^ (- e2) * 2 ^ 75 = c * 2 ^ (- e1)).
  { unfold c. rewrite <- !Z.pow_add_r by lia. f_equal. lia. }
  assert (H128 : 2 ^ 53 * 2 ^ 75 = 16 * 2 ^ 124) by reflexivity.
  assert (Hbr' : (Zpos M - 1) * c * h <= 16 * w * 2 ^ 124 < (Zpos M + 1) * c * h).
  { destruct Hbr as [B1 B2]. rewrite Hv1, Hv2 in B1, B2.
    apply (Z.mul_le_mono_nonneg_r _ _ (2 ^ 75)) in B1; [| lia].
    apply (Z.mul_lt_mono_pos_r (2 ^ 75)) in B2; [| lia].
    assert (L : forall a, a * 2 ^ t * (h * 2 ^ (- e2)) * 2 ^ 75 = a * c * h * 2 ^ (- e1)).
    { intros a. transitivity (a * h * (2 ^ t * 2 ^ (- e2) * 2 ^ 75)); [ring |].
      rewrite Hc. ring. }
    rewrite L in B1, B2.
    replace (w * 2 ^ (- e1) * 2 ^ 53 * 2 ^ 75)
      with (16 * w * 2 ^ 124 * 2 ^ (- e1)) in B1, B2
      by (rewrite <- (Z.mul_assoc _ (2 ^ 53)), H128; ring).
    apply Z.mul_le_mono_pos_r in B1; [| exact P1].
    apply Z.mul_lt_mono_pos_r in B2; [| exact P1]. lia. }
  assert (Hex' : 16 * w = 9 * h -> Zpos M * c = 9 * 2 ^ 124).
  { intros H16.
    assert (Hal : - e2 <= - e1 /\ 9 * Zpos m2 * 2 ^ (- e1 - - e2) = 16 * Zpos m1).
    { apply pow2_align; [lia | lia | rewrite pow52, pow53 in *; lia | ].
      rewrite Hv1, Hv2. 
      replace (9 * (h * 2 ^ (- e2)) * 2 ^ (- e1)) with (9 * h * (2 ^ (- e2) * 2 ^ (- e1))) by ring.
      rewrite <- H16. ring. }
    destruct Hal as [Hk Hprod].
    destruct (Hexact (Zpos tr) (- e1 - - e2) Htr' ltac:(lia)) as [EM Et].
    { rewrite Htr. replace (2 ^ 53) with (16 * 2 ^ 49) by reflexivity.
      replace (9 * 2 ^ 49 * 2 ^ (- e1 - - e2) * Zpos m2)
        with (9 * Zpos m2 * 2 ^ (- e1 - - e2) * 2 ^ 49) by ring.
      rewrite Hprod. ring. }
    rewrite EM, Htr. unfold c. replace (E + 128) with 75 by lia. reflexivity. }
  pose proof (ratio_decision (Zpos M) c h w (2 ^ 124) HM Pc Hh ltac:(lia) P124 Hbr' Hex') as Hdec.
  rewrite Htr.
  replace (9 * 2 ^ 49 * 2 ^ 75) with (9 * 2 ^ 124) by reflexivity.
  destruct (Z.ltb_spec (9 * h) (16 * w)) as [Hl | Hl].
  - apply Z.ltb_lt. apply Hdec. exact Hl.
  - apply Z.ltb_ge. destruct (Z_lt_ge_dec (9 * 2 ^ 124) (Zpos M * c)) as [H | H]; [| lia].
    apply Hdec in H. lia.
Qed.

(** ** The crop rectangle in integer arithmetic *)

Lemma valid_dim_range (n : Z) : valid_dim n -> 1 <= n < 2 ^ 31.
Proof. unfold valid_dim, MAX_DIM. change (2 ^ 31) with 2147483648. lia. Qed.

(** On rasters of valid dimensions the floating-point computation of lines
    91-112 never raises and agrees with exact integer arithmetic. *)
Lemma crop_region_exact (w h : Z) (mode : string) :
  valid_dim w -> valid_dim h ->
  crop_region w h mode =
    Ok (if 9 * h <? 16 * w
        then mkCrop ((w - 9 * h / 16) / 2) 0 (9 * h / 16) h
        else mkCrop 0
               (if (mode =? "top")%string then 0
                else if (mode =? "bottom")%string then h - 16 * w / 9
                else (h - 16 * w / 9) / 2)
               w (16 * w / 9)).
Proof.
  intros Hw Hh. apply valid_dim_range in Hw, Hh.
  unfold crop_region.
  destruct (ratio_gt w h Hw Hh) as (r & Er & Eg).
  rewrite Er. cbn [bind]. rewrite Eg.
  destruct (9 * h <? 16 * w).
  - pose proof (mul_ratio_to_int h Hh) as Hm.
    destruct (PyFloat.mul_int_float h TARGET_RATIO) as [scaled | e];
      cbn [bind] in *; [rewrite Hm; reflexivity | discriminate Hm].
  - pose proof (div_ratio_to_int w Hw) as Hd.
    destruct (PyFloat.truediv_int_float w TARGET_RATIO) as [scaled | e];
      cbn [bind] in *; [rewrite Hd; reflexivity | discriminate Hd].
Qed.

(** The rational formulation of the specification, in integers. *)
Lemma spec_crop_exact (w h : Z) (mode : string) :
  0 < h ->
  spec_crop w h mode =
    if 9 * h <? 16 * w
    then mkCrop ((w - 9 * h / 16) / 2) 0 (9 * h / 16) h
    else mkCrop 0
           (if (mode =? "top")%string then 0
            else if (mode =? "bottom")%string then h - 16 * w / 9
            else (h - 16 * w / 9) / 2)
           w (16 * w / 9).
Proof.
  intros Hh. destruct h as [| p | p]; [lia | | lia].
  unfold spec_crop.
  assert (Ecmp : negb (Qle_bool (inject_Z w / inject_Z (Zpos p)) (9 # 16))
                 = (9 * Zpos p <? 16 * w)).
  { unfold Qle_bool, Qdiv, Qmult, Qinv, inject_Z. cbn [Qnum Qden].
    rewrite Z.ltb_antisym. f_equal. f_equal; lia. }
  assert (Ew : Qfloor (inject_Z (Zpos p) * (9 # 16)) = 9 * Zpos p / 16).
  { unfold Qfloor, Qmult, inject_Z. cbn [Qnum Qden].
    f_equal. lia. }
  assert (Eh : Qfloor (inject_Z w / (9 # 16)) = 16 * w / 9).
  { unfold Qfloor, Qdiv, Qmult, Qinv, inject_Z. cbn [Qnum Qden].
    f_equal. lia. }
  rewrite Ecmp, Ew, Eh. reflexivity.
Qed.

(** ** The steps of the transform *)

Lemma tags_loop_orientation : tags_loop ExifTags_TAGS None = Some 274.
Proof. reflexivity. Qed.

Section TransformFacts.

Context {P : Pillow}.

Lemma to_rgb_mode (img : image) : mode (to_rgb img) = "RGB"%string.
Proof.
  unfold to_rgb.
  destruct (mode_in (mode img) ["RGBA"; "P"; "LA"]%string); [reflexivity|].
  destruct (mode img =? "RGB")%string eqn:E; cbn [negb]; [| reflexivity].
  apply String.eqb_eq. exact E.
Qed.

Lemma to_rgb_size (img : image) : size (to_rgb img) = size img.
Proof.
  unfold to_rgb.
  destruct (mode_in (mode img) ["RGBA"; "P"; "LA"]%string); [reflexivity|].
  destruct (negb (mode img =? "RGB")%string); reflexivity.
Qed.

(** The EXIF block either fails with the exception of [_getexif], when the
    [except] clause does not list it, or yields an image of the oriented
    size. *)
Lemma correct_orientation_cases (img : image) :
  (exists e, _getexif img = Raise e /\ caught e = false /\
             correct_orientation img = Raise e) \/
  (exists img', correct_orientation img = Ok img' /\
                size img' = oriented_size img /\
                (orientation_readable img)).
Proof.
  unfold correct_orientation, oriented_size, orientation_of, orientation_readable.
  rewrite tags_loop_orientation.
  destruct (_getexif img) as [[d |] | e]; cbn [bind try_except_pass].
  - right.
    destruct (size img) as [w h] eqn:Es.
    destruct (value_is (dict_get d 274) 3) eqn:E3.
    { assert (E6 : value_is (dict_get d 274) 6 = false).
      { unfold value_is in *. destruct (dict_get d 274) as [[n |] |]; try reflexivity.
        apply Z.eqb_eq in E3. subst n. reflexivity. }
      assert (E8 : value_is (dict_get d 274) 8 = false).
      { unfold value_is in *. destruct (dict_get d 274) as [[n |] |]; try reflexivity.
        apply Z.eqb_eq in E3. subst n. reflexivity. }
      rewrite E6, E8. eexists. split; [reflexivity|]. split; [| exact I].
      unfold rotate. rewrite Es. reflexivity. }
    destruct (value_is (dict_get d 274) 6) eqn:E6.
    { eexists. split; [reflexivity|]. split; [| exact I].
      unfold rotate. rewrite Es. reflexivity. }
    destruct (value_is (dict_get d 274) 8) eqn:E8.
    { eexists. split; [reflexivity|]. split; [| exact I].
      unfold rotate. rewrite Es. reflexivity. }
    eexists. split; [reflexivity|]. split; [| exact I].
    rewrite Es. reflexivity.
  - right. exists img. split; [reflexivity|]. split; [| exact I].
    destruct (size img); reflexivity.
  - destruct (caught e) eqn:Ec.
    + right. exists img. split; [reflexivity|]. split; [| reflexivity].
      destruct (size img); reflexivity.
    + left. exists e. auto.
Qed.

(** What a successful run went through. *)
Lemma process_image_inv (data : bytes) (m : string) (jpeg : bytes) (inf : info) :
  process_image data m = Ok (jpeg, inf) ->
  exists (img0 img1 cropped resized : image) (box : crop_rect),
    Image_open data = Ok img0 /\
    correct_orientation img0 = Ok img1 /\
    crop_region (fst (size img1)) (snd (size img1)) m = Ok box /\
    crop (to_rgb img1)
      (crop_x box, crop_y box, crop_x box + crop_width box,
       crop_y box + crop_height box) = Ok cropped /\
    resize cropped (TARGET_WIDTH, TARGET_HEIGHT) = Ok resized /\
    save_jpeg resized JPEG_QUALITY true = Ok jpeg /\
    inf = mkInfo (fst (size img1)) (snd (size img1)) m
            TARGET_WIDTH TARGET_HEIGHT (Z.of_nat (List.length jpeg)).
Proof.
  unfold process_image. intros H.
  destruct (Image_open data) as [img0 | e] eqn:E0; cbn [bind] in H;
    [| discriminate H].
  destruct (correct_orientation img0) as [img1 | e] eqn:E1; cbn [bind] in H;
    [| discriminate H].
  pose proof (to_rgb_size img1) as Es.
  destruct (size (to_rgb img1)) as [ow oh].
  destruct (crop_region ow oh m) as [box | e] eqn:Eb; cbn [bind] in H;
    [| discriminate H].
  destruct (crop (to_rgb img1) _) as [cropped | e] eqn:Ec; cbn [bind] in H;
    [| discriminate H].
  destruct (resize cropped _) as [resized | e] eqn:Er; cbn [bind] in H;
    [| discriminate H].
  destruct (save_jpeg resized _ _) as [j | e] eqn:Ej; cbn [bind] in H;
    [| discriminate H].
  injection H as <- <-.
  exists img0, img1, cropped, resized, box. rewrite <- Es. cbn [fst snd].
  repeat split; first [assumption | reflexivity].
Qed.

(** A run whose steps succeed. *)
Lemma process_image_run (data : bytes) (m : string)
    (img0 img1 cropped resized : image) (box : crop_rect) (jpeg : bytes) :
  Image_open data = Ok img0 ->
  correct_orientation img0 = Ok img1 ->
  crop_region (fst (size img1)) (snd (size img1)) m = Ok box ->
  crop (to_rgb img1)
    (crop_x box, crop_y box, crop_x box + crop_width box,
     crop_y box + crop_height box) = Ok cropped ->
  resize cropped (TARGET_WIDTH, TARGET_HEIGHT) = Ok resized ->
  save_jpeg resized JPEG_QUALITY true = Ok jpeg ->
  process_image data m =
    Ok (jpeg, mkInfo (fst (size img1)) (snd (size img1)) m
                TARGET_WIDTH TARGET_HEIGHT (Z.of_nat (List.length jpeg))).
Proof.
  intros H0 H1 Hb Hc Hr Hj. unfold process_image.
  rewrite H0. cbn [bind]. rewrite H1. cbn [bind].
  rewrite <- (to_rgb_size img1) in Hb |- *.
  destruct (size (to_rgb img1)) as [ow oh]. cbn [fst snd] in *.
  rewrite Hb. cbn [bind]. rewrite Hc. cbn [bind]. rewrite Hr. cbn [bind].
  rewrite Hj. reflexivity.
Qed.

Lemma crop_spec (img cropped : image) (box : Z * Z * Z * Z) :
  crop img box = Ok cropped -> mode cropped = mode img.
Proof.
  unfold crop. destruct box as [[[x0 y0] x1] y1].
  destruct (x1 <? x0); [discriminate|].
  destruct (y1 <? y0); [discriminate|].
  intros H. injection H as <-. reflexivity.
Qed.

Lemma resize_spec (img resized : image) (sz : Z * Z) :
  resize img sz = Ok resized -> mode resized = mode img /\ size resized = sz.
Proof.
  unfold resize. destruct ((fst sz <? 1) || (snd sz <? 1)); [discriminate|].
  intros H. injection H as <-. split; reflexivity.
Qed.

Lemma save_jpeg_spec (img : image) (q : Z) (o : bool) (jpeg : bytes) :
  save_jpeg img q o = Ok jpeg ->
  jpeg = core_jpeg_encode (mode img) (size img) (im img) q o.
Proof.
  unfold save_jpeg. destruct (mode_in _ _); [| discriminate].
  intros H. injection H as <-. reflexivity.
Qed.

End TransformFacts.

Lemma has_target_ratio_int (r : crop_rect) :
  0 < crop_height r ->
  (has_target_ratio r <-> 16 * crop_width r = 9 * crop_height r).
Proof.
  intros Hh. unfold has_target_ratio.
  destruct (crop_height r) as [| p | p]; [lia | | lia].
  unfold Qeq, Qdiv, Qmult, Qinv, inject_Z. cbn [Qnum Qden].
  split; intros H; lia.
Qed.

(** The crop rectangle of a raster of valid dimensions: no exception, sides
    that are not negative, and a position within the raster. *)
Lemma crop_region_bounds (w h : Z) (mode : string) :
  valid_dim w -> valid_dim h ->
  exists r,
    crop_region w h mode = Ok r /\
    0 <= crop_x r /\ 0 <= crop_y r /\
    0 <= crop_width r /\ 0 <= crop_height r /\
    crop_x r + crop_width r <= w /\ crop_y r + crop_height r <= h.
Proof.
  intros Hw Hh. eexists. split; [apply crop_region_exact; assumption|].
  unfold valid_dim, MAX_DIM in Hw, Hh.
  destruct (Z.ltb_spec (9 * h) (16 * w)) as [Hwide | Htall];
    cbn [crop_x crop_y crop_width crop_height].
  - assert (0 <= 9 * h / 16) by (apply Z.div_pos; lia).
    assert (9 * h / 16 <= w) by (apply Z.div_le_upper_bound; lia).
    pose proof (Z.div_mod (w - 9 * h / 16) 2 ltac:(lia)).
    pose proof (Z.mod_pos_bound (w - 9 * h / 16) 2 ltac:(lia)).
    lia.
  - assert (0 <= 16 * w / 9) by (apply Z.div_pos; lia).
    assert (16 * w / 9 <= h) by (apply Z.div_le_upper_bound; lia).
    pose proof (Z.div_mod (h - 16 * w / 9) 2 ltac:(lia)).
    pose proof (Z.mod_pos_bound (h - 16 * w / 9) 2 ltac:(lia)).
    destruct (mode =? "top")%string; [lia|].
    destruct (mode =? "bottom")%string; lia.
Qed.

(** An unrecognised crop mode is cropped as "center". *)
Lemma crop_region_fallback (w h : Z) (mode : string) :
  mode <> "top"%string -> mode <> "bottom"%string ->
  crop_region w h mode = crop_region w h "center".
Proof.
  intros Ht Hb. unfold crop_region.
  apply String.eqb_neq in Ht, Hb. rewrite Ht, Hb. reflexivity.
Qed.

(** The two worked examples of the specification. *)
Example crop_4000x3000_center :
  crop_region 4000 3000 "center" = Ok (mkCrop 1156 0 1687 3000).
Proof. vm_compute. reflexivity. Qed.

Example crop_1000x2000_bottom :
  crop_region 1000 2000 "bottom" = Ok (mkCrop 0 223 1000 1777).
Proof. vm_compute. reflexivity. Qed.

(** A raster without height cannot be measured: the ratio of line 91 raises. *)
Example crop_zero_height :
  crop_region 640 0 "center" = Raise ZeroDivisionError.
Proof. reflexivity. Qed.

(** * The claims *)

(** C1: for every raster of width w >= 1 and height h >= 1 (within the range
    of a raster dimension) and every crop mode, the crop rectangle that
    [process_image] computes is the one of the specification's piecewise
    formula: full height, width floor(h * 9/16), horizontally centred and
    y = 0 when w/h > 9/16; otherwise full width, height floor(w / (9/16)),
    x = 0 and y = 0 for "top", h - crop_height for "bottom" and
    (h - crop_height) // 2 for any other mode. *)
Theorem C1_crop_rectangle_formula (w h : Z) (crop_mode : string) :
  valid_dim w -> valid_dim h ->
  crop_region w h crop_mode = Ok (spec_crop w h crop_mode).
Proof.
  intros Hw Hh.
  rewrite spec_crop_exact by (unfold valid_dim in Hh; lia).
  apply crop_region_exact; assumption.
Qed.

Lemma C1_witness :
  valid_dim 4000 /\ valid_dim 3000 /\
  crop_region 4000 3000 "center" = Ok (mkCrop 1156 0 1687 3000).
Proof.
  assert (Hw : valid_dim 4000) by (unfold valid_dim, MAX_DIM; lia).
  assert (Hh : valid_dim 3000) by (unfold valid_dim, MAX_DIM; lia).
  split; [exact Hw|]. split; [exact Hh|].
  exact (C1_crop_rectangle_formula 4000 3000 "center" Hw Hh).
Defined.

(** C3, as stated, fails: a 4000 x 3000 raster is cropped to 1687 x 3000, and
    1687/3000 is not 9/16. *)
Lemma C3_counterexample :
  exists r, crop_region 4000 3000 "center" = Ok r /\ ~ has_target_ratio r.
Proof.
  exists (mkCrop 1156 0 1687 3000). split; [vm_compute; reflexivity|].
  intros H. apply has_target_ratio_int in H; [cbn in H; lia | cbn; lia].
Qed.

(** C3, amended: the ratio of the crop rectangle is 9/16 up to the rounding
    down of one side.  When the source is wider than 9:16 the crop width is
    floor(crop_height * 9/16); otherwise the crop height is
    floor(crop_width / (9/16)).  The ratio is exactly 9/16 precisely when
    nothing is rounded away: when the height is a multiple of 16 in the first
    case, when the width is a multiple of 9 in the second. *)
Theorem C3_crop_ratio_up_to_truncation (w h : Z) (crop_mode : string) :
  valid_dim w -> valid_dim h ->
  exists r,
    crop_region w h crop_mode = Ok r /\
    (if 9 * h <? 16 * w
     then crop_height r = h /\
          crop_width r = Qfloor (inject_Z (crop_height r) * (9 # 16)) /\
          (has_target_ratio r <-> h mod 16 = 0)
     else crop_width r = w /\
          crop_height r = Qfloor (inject_Z (crop_width r) / (9 # 16)) /\
          (has_target_ratio r <-> w mod 9 = 0)).
Proof.
  intros Hw Hh. eexists. split; [apply crop_region_exact; assumption|].
  unfold valid_dim, MAX_DIM in Hw, Hh.
  destruct (9 * h <? 16 * w) eqn:E; cbn [crop_width crop_height].
  - split; [reflexivity|]. split.
    + unfold Qfloor, Qmult, inject_Z. cbn [Qnum Qden]. f_equal. lia.
    + rewrite has_target_ratio_int by (cbn [crop_height]; lia). cbn [crop_width crop_height].
      pose proof (Z.div_mod (9 * h) 16 ltac:(lia)) as Hd.
      pose proof (Z.mod_pos_bound (9 * h) 16 ltac:(lia)) as Hb.
      pose proof (Z.div_mod h 16 ltac:(lia)) as Hd'.
      pose proof (Z.mod_pos_bound h 16 ltac:(lia)) as Hb'.
      split; intros H; lia.
  - assert (H16 : 1 <= 16 * w / 9) by (apply Z.div_le_lower_bound; lia).
    split; [reflexivity|]. split.
    + unfold Qfloor, Qdiv, Qmult, Qinv, inject_Z. cbn [Qnum Qden]. f_equal. lia.
    + rewrite has_target_ratio_int by (cbn [crop_height]; lia). cbn [crop_width crop_height].
      pose proof (Z.div_mod (16 * w) 9 ltac:(lia)) as Hd.
      pose proof (Z.mod_pos_bound (16 * w) 9 ltac:(lia)) as Hb.
      pose proof (Z.div_mod w 9 ltac:(lia)) as Hd'.
      pose proof (Z.mod_pos_bound w 9 ltac:(lia)) as Hb'.
      split; intros H; lia.
Qed.

Lemma C3_witness :
  valid_dim 4000 /\ valid_dim 3000 /\
  exists r,
    crop_region 4000 3000 "center" = Ok r /\
    crop_height r = 3000 /\
    crop_width r = Qfloor (inject_Z (crop_height r) * (9 # 16)) /\
    (has_target_ratio r <-> 3000 mod 16 = 0).
Proof.
  assert (Hw : valid_dim 4000) by (unfold valid_dim, MAX_DIM; lia).
  assert (Hh : valid_dim 3000) by (unfold valid_dim, MAX_DIM; lia).
  split; [exact Hw|]. split; [exact Hh|].
  exact (C3_crop_ratio_up_to_truncation 4000 3000 "center" Hw Hh).
Defined.

(** C9: for a raster whose ratio is 9/16 already (width 9k, height 16k) the
    crop rectangle is the whole raster, whatever the crop mode. *)
Theorem C9_target_ratio_keeps_whole_raster (k : Z) (crop_mode : string) :
  1 <= k -> valid_dim (16 * k) ->
  crop_region (9 * k) (16 * k) crop_mode = Ok (mkCrop 0 0 (9 * k) (16 * k)).
Proof.
  intros Hk Hh.
  rewrite crop_region_exact;
    [| unfold valid_dim, MAX_DIM in *; lia | assumption].
  replace (9 * (16 * k) <? 16 * (9 * k)) with false
    by (symmetry; apply Z.ltb_ge; lia).
  replace (16 * (9 * k) / 9) with (16 * k)
    by (apply Z.div_unique with (r := 0); lia).
  rewrite Z.sub_diag. change (0 / 2) with 0.
  destruct (crop_mode =? "top")%string; [reflexivity|].
  destruct (crop_mode =? "bottom")%string; reflexivity.
Qed.

Lemma C9_witness :
  1 <= 120 /\ valid_dim (16 * 120) /\
  crop_region (9 * 120) (16 * 120) "bottom" = Ok (mkCrop 0 0 1080 1920).
Proof.
  assert (Hk : 1 <= 120) by lia.
  assert (Hh : valid_dim (16 * 120)) by (unfold valid_dim, MAX_DIM; lia).
  split; [exact Hk|]. split; [exact Hh|].
  exact (C9_target_ratio_keeps_whole_raster 120 "bottom" Hk Hh).
Defined.

(** C10: for every raster of valid dimensions and every crop mode the crop
    rectangle is computed without an exception and lies within the raster:
    crop_x >= 0, crop_y >= 0, crop_x + crop_width <= width and
    crop_y + crop_height <= height. *)
Theorem C10_crop_rectangle_within_source (w h : Z) (crop_mode : string) :
  valid_dim w -> valid_dim h ->
  exists r,
    crop_region w h crop_mode = Ok r /\
    0 <= crop_x r /\ 0 <= crop_y r /\
    crop_x r + crop_width r <= w /\ crop_y r + crop_height r <= h.
Proof.
  intros Hw Hh.
  destruct (crop_region_bounds w h crop_mode Hw Hh)
    as (r & Er & Hx & Hy & _ & _ & Hxw & Hyh).
  exists r. auto.
Qed.

Lemma C10_witness :
  valid_dim 1000 /\ valid_dim 2000 /\
  exists r,
    crop_region 1000 2000 "bottom" = Ok r /\
    0 <= crop_x r /\ 0 <= crop_y r /\
    crop_x r + crop_width r <= 1000 /\ crop_y r + crop_height r <= 2000.
Proof.
  assert (Hw : valid_dim 1000) by (unfold valid_dim, MAX_DIM; lia).
  assert (Hh : valid_dim 2000) by (unfold valid_dim, MAX_DIM; lia).
  split; [exact Hw|]. split; [exact Hh|].
  exact (C10_crop_rectangle_within_source 1000 2000 "bottom" Hw Hh).
Defined.

(** C2: whenever [process_image] succeeds, the JPEG it returns encodes a
    raster of exactly 1080 x 1920 pixels in mode RGB, three bands and no
    alpha, and the metadata reports these dimensions, whatever the size, the
    mode and the crop mode of the input. *)
Theorem C2_result_is_1080x1920_rgb {P : Pillow}
    (data : bytes) (crop_mode : string) (jpeg : bytes) (inf : info) :
  process_image data crop_mode = Ok (jpeg, inf) ->
  exists result : image,
    jpeg = core_jpeg_encode (mode result) (size result) (im result)
             JPEG_QUALITY true /\
    size result = (1080, 1920) /\
    getbands (mode result) = ["R"; "G"; "B"]%string /\
    result_width inf = 1080 /\ result_height inf = 1920.
Proof.
  intros H.
  destruct (process_image_inv _ _ _ _ H)
    as (img0 & img1 & cropped & resized & box & _ & _ & _ & Hc & Hr & Hj & ->).
  exists resized.
  apply save_jpeg_spec in Hj. apply resize_spec in Hr. apply crop_spec in Hc.
  destruct Hr as [Hm Hs].
  split; [exact Hj|]. split; [exact Hs|].
  rewrite Hm, Hc, to_rgb_mode. repeat split.
Qed.

Lemma C2_witness :
  exists jpeg inf,
    @process_image TestCodec.pillow TestCodec.portrait "bottom"
      = Ok (jpeg, inf) /\
    exists result : Image unit,
      jpeg = TestCodec.encode (mode result) (size result) (im result) 92 true /\
      size result = (1080, 1920) /\
      getbands (mode result) = ["R"; "G"; "B"]%string /\
      result_width inf = 1080 /\ result_height inf = 1920.
Proof.
  eexists. eexists. split; [vm_compute; reflexivity|].
  apply (@C2_result_is_1080x1920_rgb TestCodec.pillow TestCodec.portrait "bottom").
  vm_compute; reflexivity.
Defined.

(** C4, as stated, fails: with the crop mode "left" the transform succeeds
    and the metadata reports "left", which is none of the three modes. *)
Lemma C4_counterexample :
  exists jpeg inf,
    @process_image TestCodec.pillow TestCodec.portrait "left"
      = Ok (jpeg, inf) /\
    ~ known_crop_mode (crop_mode inf).
Proof.
  eexists. eexists. split; [vm_compute; reflexivity|].
  cbn [crop_mode]. intros [H | [H | H]]; discriminate H.
Qed.

(** C4, amended: whenever [process_image] succeeds, the crop_mode field of
    the metadata is the crop_mode argument, unchanged.  An argument other
    than "top" and "bottom" is cropped as "center", it yields the JPEG that
    "center" yields, but the metadata still reports the argument. *)
Theorem C4_crop_mode_reported_unchanged {P : Pillow}
    (data : bytes) (mode : string) (jpeg : bytes) (inf : info) :
  process_image data mode = Ok (jpeg, inf) ->
  crop_mode inf = mode /\
  (mode <> "top"%string -> mode <> "bottom"%string ->
   exists inf', process_image data "center" = Ok (jpeg, inf')).
Proof.
  intros H.
  destruct (process_image_inv _ _ _ _ H)
    as (img0 & img1 & cropped & resized & box & H0 & H1 & Hb & Hc & Hr & Hj & ->).
  split; [reflexivity|].
  intros Ht Hbot. rewrite (crop_region_fallback _ _ _ Ht Hbot) in Hb.
  eexists. exact (process_image_run _ _ _ _ _ _ _ _ H0 H1 Hb Hc Hr Hj).
Qed.

Lemma C4_witness :
  exists jpeg inf,
    @process_image TestCodec.pillow TestCodec.portrait "left"
      = Ok (jpeg, inf) /\
    crop_mode inf = "left"%string /\
    ("left" <> "top" -> "left" <> "bottom" ->
     exists inf',
       @process_image TestCodec.pillow TestCodec.portrait "center"
         = Ok (jpeg, inf'))%string.
Proof.
  eexists. eexists. split; [vm_compute; reflexivity|].
  apply (@C4_crop_mode_reported_unchanged TestCodec.pillow TestCodec.portrait "left").
  vm_compute; reflexivity.
Defined.

(** C6, as stated, fails: a file that decodes to a 4000 x 3000 raster with
    the EXIF orientation 6 is reported as 3000 x 4000. *)
Lemma C6_counterexample :
  exists img jpeg inf,
    @Image_open TestCodec.pillow TestCodec.landscape_rotated = Ok img /\
    @process_image TestCodec.pillow TestCodec.landscape_rotated "center"
      = Ok (jpeg, inf) /\
    size img = (4000, 3000) /\
    (original_width inf, original_height inf) <> size img.
Proof.
  eexists. eexists. eexists.
  split; [vm_compute; reflexivity|]. split; [vm_compute; reflexivity|].
  split; [reflexivity|].
  cbn. intros H. discriminate H.
Qed.

(** C6, amended: whenever [process_image] succeeds, original_width and
    original_height are the width and the height of the raster after the
    orientation correction, whatever the crop mode: those of the decoded
    raster, in the other order when its EXIF orientation is 6 or 8. *)
Theorem C6_original_size_is_oriented_size {P : Pillow}
    (data : bytes) (crop_mode : string) (img : image) (jpeg : bytes) (inf : info) :
  Image_open data = Ok img ->
  process_image data crop_mode = Ok (jpeg, inf) ->
  (original_width inf, original_height inf) = oriented_size img.
Proof.
  intros Hopen H.
  destruct (process_image_inv _ _ _ _ H)
    as (img0 & img1 & cropped & resized & box & H0 & H1 & _ & _ & _ & _ & ->).
  rewrite Hopen in H0. injection H0 as <-.
  cbn [original_width original_height].
  destruct (correct_orientation_cases img)
    as [(e & _ & _ & He) | (img' & E' & Hs & _)].
  - rewrite He in H1. discriminate H1.
  - rewrite E' in H1. injection H1 as <-. rewrite <- Hs.
    destruct (size img'); reflexivity.
Qed.

Lemma C6_witness :
  exists img jpeg inf,
    @Image_open TestCodec.pillow TestCodec.landscape_rotated = Ok img /\
    @process_image TestCodec.pillow TestCodec.landscape_rotated "top"
      = Ok (jpeg, inf) /\
    (original_width inf, original_height inf) = oriented_size img.
Proof.
  eexists. eexists. eexists.
  split; [vm_compute; reflexivity|]. split; [vm_compute; reflexivity|].
  eapply (@C6_original_size_is_oriented_size TestCodec.pillow
            TestCodec.landscape_rotated "top");
    vm_compute; reflexivity.
Defined.

(** C7, as stated, fails: the file decodes, reading its EXIF data raises
    [SyntaxError], which the [except] clause does not list, and the call
    fails with that exception. *)
Lemma C7_counterexample :
  exists img,
    @Image_open TestCodec.pillow TestCodec.broken_exif = Ok img /\
    _getexif img = Raise SyntaxError /\
    @process_image TestCodec.pillow TestCodec.broken_exif "center"
      = Raise SyntaxError.
Proof.
  eexists. split; [vm_compute; reflexivity|]. split; vm_compute; reflexivity.
Qed.

(** C7, amended: for every decodable input, when the EXIF data or its
    orientation entry is absent, when the entry is none of 3, 6 and 8, or when
    reading raises AttributeError, KeyError or IndexError, the raster is left
    unrotated and processing continues.  An exception of any other class
    raised by the read is not handled: the call fails with it. *)
Theorem C7_orientation_read_failures {P : Pillow}
    (data : bytes) (crop_mode : string) (img : image) :
  Image_open data = Ok img ->
  (orientation_skipped img -> correct_orientation img = Ok img) /\
  (forall e, _getexif img = Raise e -> caught e = false ->
             process_image data crop_mode = Raise e).
Proof.
  intros Hopen. split.
  - unfold orientation_skipped, correct_orientation.
    rewrite tags_loop_orientation.
    destruct (_getexif img) as [[d |] | e]; cbn [bind try_except_pass].
    + intros (E3 & E6 & E8). rewrite E3, E6, E8. reflexivity.
    + reflexivity.
    + intros ->. reflexivity.
  - intros e He Hc. unfold process_image. rewrite Hopen. cbn [bind].
    unfold correct_orientation. rewrite He. cbn [bind try_except_pass].
    rewrite Hc. reflexivity.
Qed.

Lemma C7_witness :
  exists img,
    @Image_open TestCodec.pillow TestCodec.portrait = Ok img /\
    orientation_skipped img /\
    @correct_orientation TestCodec.pillow img = Ok img.
Proof.
  eexists. split; [vm_compute; reflexivity|]. split; [reflexivity|].
  apply (proj1 (@C7_orientation_read_failures TestCodec.pillow
                  TestCodec.portrait "center" _ eq_refl)).
  reflexivity.
Defined.

(** C8: when the input bytes cannot be decoded, [process_image] fails with
    the exception of the decoder; it returns neither JPEG bytes nor a
    metadata record, and the decoder is not called again. *)
Theorem C8_decode_error_propagates {P : Pillow}
    (data : bytes) (crop_mode : string) (e : exception) :
  Image_open data = Raise e ->
  process_image data crop_mode = Raise e.
Proof.
  intros H. unfold process_image. rewrite H. reflexivity.
Qed.

Lemma C8_witness :
  @Image_open TestCodec.pillow [x89; x50] = Raise UnidentifiedImageError /\
  @process_image TestCodec.pillow [x89; x50] "center"
    = Raise UnidentifiedImageError.
Proof.
  split; [reflexivity|].
  apply (@C8_decode_error_propagates TestCodec.pillow). reflexivity.
Defined.




(** * Further properties: the request handler, and more on the transform *)

(** ** Searching and splitting byte strings *)

Lemma byte_eqb_refl (b : byte) : Byte.eqb b b = true.
Proof. apply Byte.byte_dec_lb. reflexivity. Qed.

Lemma starts_with_firstn (sub s : bytes) :
  PyBytes.starts_with sub s = true <-> firstn (List.length sub) s = sub.
Proof.
  revert s. induction sub as [| a sub IH]; intros s; cbn.
  - split; reflexivity.
  - destruct s as [| b s]; [split; discriminate|].
    rewrite andb_true_iff, IH. split.
    + intros [Hab Hs]. apply Byte.byte_dec_bl in Hab. congruence.
    + intros H. injection H as -> H. split; [apply byte_eqb_refl | exact H].
Qed.

Lemma starts_with_app (sub r : bytes) :
  PyBytes.starts_with sub (sub ++ r) = true.
Proof.
  apply starts_with_firstn.
  rewrite firstn_app, Nat.sub_diag, firstn_all. cbn. apply app_nil_r.
Qed.

Lemma starts_with_short (sub s : bytes) :
  (List.length s < List.length sub)%nat -> PyBytes.starts_with sub s = false.
Proof.
  intros H. destruct (PyBytes.starts_with sub s) eqn:E; [| reflexivity].
  apply starts_with_firstn in E.
  assert (L : List.length (firstn (List.length sub) s) = List.length sub)
    by (rewrite E; reflexivity).
  rewrite length_firstn in L. lia.
Qed.

(** Whether [sub] occurs at the front of [x ++ y] depends on [x] alone when
    [x] is long enough. *)
Lemma starts_with_window (sub x y z : bytes) :
  (List.length sub <= List.length x)%nat ->
  PyBytes.starts_with sub (x ++ y) = PyBytes.starts_with sub (x ++ z).
Proof.
  intros H.
  assert (E : forall w, firstn (List.length sub) (x ++ w)
                        = firstn (List.length sub) x).
  { intros w. rewrite firstn_app.
    replace (List.length sub - List.length x)%nat with 0%nat by lia.
    cbn. apply app_nil_r. }
  destruct (PyBytes.starts_with sub (x ++ y)) eqn:Ey;
    destruct (PyBytes.starts_with sub (x ++ z)) eqn:Ez; try reflexivity.
  - apply starts_with_firstn in Ey. rewrite E in Ey.
    assert (PyBytes.starts_with sub (x ++ z) = true)
      by (apply starts_with_firstn; rewrite E; exact Ey).
    congruence.
  - apply starts_with_firstn in Ez. rewrite E in Ez.
    assert (PyBytes.starts_with sub (x ++ y) = true)
      by (apply starts_with_firstn; rewrite E; exact Ez).
    congruence.
Qed.

(** [s] has no occurrence of [sub]: [sub] is at the front of no suffix. *)
Lemma find_from_range (sub s : bytes) (i : Z) :
  PyBytes.find_from sub s i = -1 \/ i <= PyBytes.find_from sub s i.
Proof.
  revert i. induction s as [| b s IH]; intros i; cbn [PyBytes.find_from].
  - destruct (PyBytes.starts_with sub []); lia.
  - destruct (PyBytes.starts_with sub (b :: s)); [lia|].
    destruct (IH (i + 1)); lia.
Qed.

Lemma find_from_absent (sub s : bytes) (i : Z) :
  0 <= i ->
  (PyBytes.find_from sub s i = -1 <->
   forall a b, s = a ++ b -> PyBytes.starts_with sub b = false).
Proof.
  revert i. induction s as [| c s IH]; intros i Hi; cbn [PyBytes.find_from].
  - split.
    + intros H a b E. symmetry in E. apply app_eq_nil in E as [-> ->].
      destruct (PyBytes.starts_with sub []); [lia | reflexivity].
    + intros H. rewrite (H [] [] eq_refl). reflexivity.
  - split.
    + intros H a b E.
      destruct (PyBytes.starts_with sub (c :: s)) eqn:E0; [lia|].
      destruct a as [| a0 a].
      * cbn in E. subst b. exact E0.
      * cbn in E. injection E as <- E.
        apply (proj1 (IH (i + 1) ltac:(lia)) H a b E).
    + intros H. rewrite (H [] (c :: s) eq_refl).
      apply (IH (i + 1) ltac:(lia)). intros a b E.
      apply (H (c :: a) b). cbn. congruence.
Qed.

Lemma contains_false (sub s : bytes) :
  PyBytes.contains sub s = false <->
  forall a b, s = a ++ b -> PyBytes.starts_with sub b = false.
Proof.
  unfold PyBytes.contains, PyBytes.find.
  rewrite <- (find_from_absent sub s 0) by lia.
  destruct (find_from_range sub s 0) as [H | H].
  - rewrite H. split; reflexivity.
  - split; intros E.
    + apply Z.leb_gt in E. lia.
    + lia.
Qed.

Lemma contains_true (sub a b : bytes) :
  PyBytes.starts_with sub b = true -> PyBytes.contains sub (a ++ b) = true.
Proof.
  intros H. destruct (PyBytes.contains sub (a ++ b)) eqn:E; [reflexivity|].
  rewrite (proj1 (contains_false sub (a ++ b)) E a b eq_refl) in H.
  discriminate H.
Qed.

Lemma contains_inside (sub a x b : bytes) :
  PyBytes.contains sub x = true -> PyBytes.contains sub (a ++ x ++ b) = true.
Proof.
  intros H. destruct (PyBytes.contains sub (a ++ x ++ b)) eqn:E; [reflexivity|].
  assert (F : PyBytes.contains sub x = false).
  { apply contains_false. intros u v ->.
    destruct (PyBytes.starts_with sub v) eqn:Ev; [| reflexivity].
    assert (Hw : PyBytes.starts_with sub (v ++ b) = true).
    { apply starts_with_firstn in Ev. apply starts_with_firstn.
      rewrite firstn_app, Ev.
      assert (L : (List.length sub <= List.length v)%nat).
      { rewrite <- Ev at 1. rewrite length_firstn. lia. }
      replace (List.length sub - List.length v)%nat with 0%nat by lia.
      cbn. apply app_nil_r. }
    rewrite (proj1 (contains_false sub _) E (a ++ u) (v ++ b)) in Hw.
    - discriminate Hw.
    - rewrite <- !app_assoc. reflexivity. }
  congruence.
Qed.

Lemma contains_short (sub s : bytes) :
  (List.length s < List.length sub)%nat -> PyBytes.contains sub s = false.
Proof.
  intros H. apply contains_false. intros a b ->.
  apply starts_with_short. rewrite length_app in H. lia.
Qed.

Lemma clear_before_spec (sub a r : bytes) :
  clear_before sub a ->
  forall a1 a2, a = a1 ++ a2 -> a2 <> [] ->
                PyBytes.starts_with sub (a2 ++ sub ++ r) = false.
Proof.
  intros H a1 a2 -> Hne.
  destruct sub as [| s0 sub'] eqn:Es.
  { unfold clear_before in H. cbn in H.
    pose proof (proj1 (contains_false [] _) H [] _ eq_refl) as F. discriminate F. }
  rewrite <- Es in *.
  assert (Hsub : sub = removelast sub ++ [last sub s0])
    by (apply app_removelast_last; rewrite Es; discriminate).
  assert (Hlen : List.length sub = S (List.length (removelast sub))).
  { rewrite Hsub at 1. rewrite length_app. cbn. lia. }
  rewrite Hsub at 2. rewrite <- !app_assoc.
  rewrite (app_assoc a2 (removelast sub)).
  rewrite (starts_with_window sub (a2 ++ removelast sub) _ []).
  - rewrite app_nil_r.
    apply (proj1 (contains_false sub _) H a1 (a2 ++ removelast sub)).
    rewrite <- app_assoc. reflexivity.
  - rewrite length_app. destruct a2; [contradiction | cbn; lia].
Qed.

(** [s.find(sub)] is the position of the first occurrence. *)
Lemma find_from_first (sub a b : bytes) (i : Z) :
  (forall a1 a2, a = a1 ++ a2 -> a2 <> [] ->
                 PyBytes.starts_with sub (a2 ++ b) = false) ->
  PyBytes.starts_with sub b = true ->
  PyBytes.find_from sub (a ++ b) i = i + Z.of_nat (List.length a).
Proof.
  revert i. induction a as [| c a IH]; intros i Hno Hb.
  - cbn [app List.length]. destruct b; cbn [PyBytes.find_from]; rewrite Hb; cbn; lia.
  - cbn [app PyBytes.find_from].
    change (c :: a ++ b) with ((c :: a) ++ b).
    rewrite (Hno [] (c :: a) eq_refl) by discriminate.
    rewrite IH; [cbn [List.length]; lia | | exact Hb].
    intros a1 a2 E Hne. apply (Hno (c :: a1) a2); [cbn; congruence | exact Hne].
Qed.

Lemma find_first (sub a r : bytes) :
  clear_before sub a ->
  PyBytes.find (a ++ sub ++ r) sub = Z.of_nat (List.length a).
Proof.
  intros H. unfold PyBytes.find. rewrite find_from_first.
  - lia.
  - apply clear_before_spec. exact H.
  - apply starts_with_app.
Qed.

(** [s.rfind(sub)] when [s] ends with [sub]. *)
Lemma rfind_from_short (sub s : bytes) (i best : Z) :
  (List.length s < List.length sub)%nat ->
  PyBytes.rfind_from sub s i best = best.
Proof.
  revert i. induction s as [| c s IH]; intros i H; cbn [PyBytes.rfind_from].
  - rewrite starts_with_short by exact H. reflexivity.
  - rewrite starts_with_short by exact H.
    apply IH. cbn in H. lia.
Qed.

Lemma rfind_last (sub a : bytes) :
  sub <> [] -> PyBytes.rfind (a ++ sub) sub = Z.of_nat (List.length a).
Proof.
  intros Hne. unfold PyBytes.rfind.
  assert (G : forall i best,
             PyBytes.rfind_from sub (a ++ sub) i best
             = i + Z.of_nat (List.length a)).
  { induction a as [| c a IH]; intros i best.
    - cbn [app List.length]. destruct sub as [| s0 sub']; [contradiction|].
      cbn [PyBytes.rfind_from].
      rewrite (starts_with_app (s0 :: sub') []) || idtac.
      replace (PyBytes.starts_with (s0 :: sub') (s0 :: sub')) with true.
      + rewrite rfind_from_short by (cbn; lia). cbn. lia.
      + symmetry. rewrite <- (app_nil_r (s0 :: sub')) at 2.
        apply starts_with_app.
    - cbn [app PyBytes.rfind_from]. rewrite IH. cbn [List.length]. lia. }
  rewrite G. lia.
Qed.

Lemma slice_middle (a b c : bytes) :
  PyBytes.slice (a ++ b ++ c) (Z.of_nat (List.length a))
    (Z.of_nat (List.length a) + Z.of_nat (List.length b)) = b.
Proof.
  unfold PyBytes.slice.
  rewrite Nat2Z.id.
  replace (Z.to_nat (_ + _ - _)) with (List.length b) by lia.
  rewrite skipn_app, skipn_all, Nat.sub_diag. cbn [skipn app].
  rewrite firstn_app, firstn_all, Nat.sub_diag. cbn. apply app_nil_r.
Qed.

(** [s.split(sep)] *)
Lemma split_from_skip (sep x r piece : bytes) :
  PyBytes.split_from sep (x ++ r) (List.length x) piece
  = match r with
    | [] => [rev piece]
    | _ => PyBytes.split_from sep r 0 piece
    end.
Proof.
  induction x as [| c x IH]; cbn [app List.length PyBytes.split_from].
  - destruct r; reflexivity.
  - exact IH.
Qed.

Lemma split_from_nil (sep piece : bytes) :
  PyBytes.split_from sep [] 0 piece = [rev piece].
Proof. reflexivity. Qed.

Lemma split_from_step (sep a r piece : bytes) :
  sep <> [] ->
  (forall a1 a2, a = a1 ++ a2 -> a2 <> [] ->
                 PyBytes.starts_with sep (a2 ++ sep ++ r) = false) ->
  PyBytes.split_from sep (a ++ sep ++ r) 0 piece
  = (rev piece ++ a) :: PyBytes.split_from sep r 0 [].
Proof.
  intros Hne. revert piece.
  induction a as [| c a IH]; intros piece Hno.
  - cbn [app]. rewrite app_nil_r.
    destruct sep as [| s0 sep']; [contradiction|].
    cbn [app PyBytes.split_from].
    change (s0 :: sep' ++ r) with ((s0 :: sep') ++ r).
    rewrite starts_with_app. f_equal.
    replace (List.length (s0 :: sep') - 1)%nat with (List.length sep')
      by (cbn [List.length]; lia).
    rewrite split_from_skip. destruct r; reflexivity.
  - cbn [app PyBytes.split_from].
    change (c :: a ++ sep ++ r) with ((c :: a) ++ sep ++ r).
    rewrite (Hno [] (c :: a) eq_refl) by discriminate.
    rewrite IH.
    + cbn [rev]. rewrite <- app_assoc. reflexivity.
    + intros a1 a2 E Hn. apply (Hno (c :: a1) a2); [cbn; congruence | exact Hn].
Qed.

Lemma split_from_last (sep a piece : bytes) :
  PyBytes.contains sep a = false ->
  PyBytes.split_from sep a 0 piece = [rev piece ++ a].
Proof.
  revert piece. induction a as [| c a IH]; intros piece H.
  - cbn. rewrite app_nil_r. reflexivity.
  - cbn [PyBytes.split_from].
    rewrite (proj1 (contains_false sep _) H [] (c :: a) eq_refl).
    rewrite IH.
    + cbn [rev]. rewrite <- app_assoc. reflexivity.
    + apply contains_false. intros u v E.
      apply (proj1 (contains_false sep _) H (c :: u) v). cbn. congruence.
Qed.

(** A text made of pieces that end with the separator, and a last piece. *)
Lemma split_pieces (sep : bytes) (pieces : list bytes) (last : bytes) :
  sep <> [] ->
  Forall (clear_before sep) pieces ->
  PyBytes.contains sep last = false ->
  PyBytes.split (List.concat (map (fun p => p ++ sep) pieces) ++ last) sep
  = pieces ++ [last].
Proof.
  intros Hne Hp Hl. unfold PyBytes.split.
  induction Hp as [| p pieces Hc Hp IH]; cbn [map List.concat app].
  - apply split_from_last. exact Hl.
  - rewrite <- !app_assoc. rewrite split_from_step.
    + cbn [rev app]. rewrite IH. reflexivity.
    + exact Hne.
    + apply clear_before_spec. exact Hc.
Qed.

(** The first occurrence of a pattern that occurs. *)
Lemma first_occurrence (sub s : bytes) :
  PyBytes.contains sub s = true ->
  exists a r,
    s = a ++ sub ++ r /\
    forall a1 a2, a = a1 ++ a2 -> a2 <> [] ->
                  PyBytes.starts_with sub (a2 ++ sub ++ r) = false.
Proof.
  induction s as [| c s IH]; intros H.
  - destruct (PyBytes.starts_with sub []) eqn:E.
    + apply starts_with_firstn in E. rewrite firstn_nil in E. subst sub.
      exists [], []. split; [reflexivity|].
      intros a1 a2 Ea. symmetry in Ea. apply app_eq_nil in Ea as [_ ->].
      contradiction.
    + unfold PyBytes.contains, PyBytes.find in H. cbn in H. rewrite E in H.
      discriminate H.
  - destruct (PyBytes.starts_with sub (c :: s)) eqn:E.
    + exists [], (skipn (List.length sub) (c :: s)). split.
      * cbn [app]. apply starts_with_firstn in E.
        rewrite <- E at 1. symmetry. apply firstn_skipn.
      * intros a1 a2 Ea. symmetry in Ea. apply app_eq_nil in Ea as [_ ->].
        contradiction.
    + assert (Hs : PyBytes.contains sub s = true).
      { destruct (PyBytes.contains sub s) eqn:Es; [reflexivity|].
        assert (F : PyBytes.contains sub (c :: s) = false).
        { apply contains_false. intros a b Eab.
          destruct a as [| a0 a].
          - cbn in Eab. subst b. exact E.
          - cbn in Eab. injection Eab as _ Eab.
            apply (proj1 (contains_false sub s) Es a b Eab). }
        congruence. }
      destruct (IH Hs) as (a & r & -> & Hno).
      exists (c :: a), r. split; [reflexivity|].
      intros a1 a2 Ea Hne. destruct a1 as [| a0 a1].
      * cbn in Ea. subst a2. exact E.
      * cbn in Ea. injection Ea as _ Ea. apply (Hno a1 a2 Ea Hne).
Qed.

Lemma split_from_not_nil (sep s : bytes) (skip : nat) (piece : bytes) :
  PyBytes.split_from sep s skip piece <> [].
Proof.
  revert skip piece. induction s as [| c s IH]; intros skip piece;
    cbn [PyBytes.split_from].
  - discriminate.
  - destruct skip; [| apply IH].
    destruct (PyBytes.starts_with sep (c :: s)); [discriminate | apply IH].
Qed.


Lemma encode_app (s1 s2 : string) :
  encode (s1 ++ s2) = encode s1 ++ encode s2.
Proof.
  unfold encode, list_byte_of_string.
  induction s1 as [| c s1 IH]; cbn; [reflexivity | f_equal; exact IH].
Qed.

Lemma decode_encode_text (s : string) : string_of_list_byte (encode s) = s.
Proof. apply string_of_list_byte_of_string. Qed.

Lemma removelast_length (sub : bytes) :
  sub <> [] -> (List.length (removelast sub) < List.length sub)%nat.
Proof.
  intros H. rewrite (app_removelast_last x00 H) at 2.
  rewrite length_app. cbn. lia.
Qed.

Lemma clear_before_nil (sub : bytes) : sub <> [] -> clear_before sub [].
Proof.
  intros H. unfold clear_before. cbn [app].
  apply contains_short. apply removelast_length. exact H.
Qed.


(** The parts of a body: the text before the first boundary line, the
    fields, and what follows the last boundary line. *)
Lemma split_body (sep : bytes) (fields : list bytes) (tail : bytes) :
  sep <> [] ->
  Forall (clear_before sep) fields ->
  PyBytes.contains sep tail = false ->
  PyBytes.split
    (sep ++ List.concat (map (fun p => p ++ sep) fields) ++ tail) sep
  = [] :: fields ++ [tail].
Proof.
  intros Hne Hf Ht.
  replace (sep ++ List.concat (map (fun p => p ++ sep) fields) ++ tail)
    with (List.concat (map (fun p => p ++ sep) ([] :: fields)) ++ tail)
    by (cbn [map List.concat app]; rewrite <- app_assoc; reflexivity).
  rewrite split_pieces; [reflexivity | exact Hne | | exact Ht].
  constructor; [apply clear_before_nil; exact Hne | exact Hf].
Qed.

(** Every piece of a split is a stretch of the string that was split. *)
Lemma split_from_infix (sep s : bytes) (skip : nat) (piece p : bytes) :
  skip = O \/ piece = [] ->
  In p (PyBytes.split_from sep s skip piece) ->
  exists a b, rev piece ++ s = a ++ p ++ b.
Proof.
  revert skip piece. induction s as [| c s IH]; intros skip piece Hinv Hin;
    cbn [PyBytes.split_from] in Hin.
  - destruct Hin as [<- | []]. exists [], []. rewrite app_nil_r. reflexivity.
  - destruct skip as [| k].
    + destruct (PyBytes.starts_with sep (c :: s)).
      * destruct Hin as [<- | Hin].
        { exists [], (c :: s). reflexivity. }
        destruct (IH _ _ (or_intror eq_refl) Hin) as (a & b & E).
        cbn [rev app] in E. exists (rev piece ++ c :: a), b.
        rewrite E, <- app_assoc. reflexivity.
      * destruct (IH _ _ (or_introl eq_refl) Hin) as (a & b & E).
        cbn [rev] in E. rewrite <- app_assoc in E. exists a, b. exact E.
    + destruct Hinv as [Hk | ->]; [discriminate Hk|].
      destruct (IH _ _ (or_intror eq_refl) Hin) as (a & b & E).
      cbn [rev app] in E |- *. exists (c :: a), b. rewrite E. reflexivity.
Qed.

(** A pattern that does not occur in a string occurs in none of the pieces
    of a split of it. *)
Lemma split_without (sub s sep : bytes) :
  PyBytes.contains sub s = false ->
  Forall (fun p => PyBytes.contains sub p = false) (PyBytes.split s sep).
Proof.
  intros H. apply Forall_forall. intros p Hin.
  destruct (split_from_infix sep s O [] p (or_introl eq_refl) Hin)
    as (a & b & E).
  cbn [rev app] in E.
  destruct (PyBytes.contains sub p) eqn:Ep; [| reflexivity].
  rewrite E, (contains_inside sub a p b Ep) in H. discriminate H.
Qed.

(** ** The fields of a multipart body *)

Lemma field_data_some (head data : bytes) :
  head <> [] -> data <> [] ->
  clear_before (CRLF ++ CRLF) head ->
  field_data (head ++ CRLF ++ CRLF ++ data ++ CRLF) = Some data.
Proof.
  intros Hh Hd Hclear.
  set (part := head ++ CRLF ++ CRLF ++ data ++ CRLF).
  assert (Ef : PyBytes.find part (CRLF ++ CRLF) = Z.of_nat (List.length head)).
  { unfold part.
    replace (head ++ CRLF ++ CRLF ++ data ++ CRLF)
      with (head ++ (CRLF ++ CRLF) ++ data ++ CRLF)
      by (rewrite <- !app_assoc; reflexivity).
    apply find_first. exact Hclear. }
  assert (Er : PyBytes.rfind part CRLF
               = Z.of_nat (List.length (head ++ CRLF ++ CRLF))
                 + Z.of_nat (List.length data)).
  { unfold part.
    replace (head ++ CRLF ++ CRLF ++ data ++ CRLF)
      with (((head ++ CRLF ++ CRLF) ++ data) ++ CRLF)
      by (rewrite <- !app_assoc; reflexivity).
    rewrite rfind_last by discriminate.
    rewrite length_app. lia. }
  assert (El : Z.of_nat (List.length (head ++ CRLF ++ CRLF))
               = Z.of_nat (List.length head) + 4)
    by (rewrite !length_app; cbn [List.length CRLF]; lia).
  assert (Lh : (0 < List.length head)%nat)
    by (destruct head; [contradiction | cbn; lia]).
  assert (Ld : (0 < List.length data)%nat)
    by (destruct data; [contradiction | cbn; lia]).
  unfold field_data. rewrite Ef, Er, <- El.
  replace (4 <? Z.of_nat (List.length (head ++ CRLF ++ CRLF))) with true
    by (symmetry; apply Z.ltb_lt; lia).
  replace (Z.of_nat (List.length (head ++ CRLF ++ CRLF))
           <? Z.of_nat (List.length (head ++ CRLF ++ CRLF))
              + Z.of_nat (List.length data))
    with true by (symmetry; apply Z.ltb_lt; lia).
  cbn [andb]. f_equal. unfold part.
  replace (head ++ CRLF ++ CRLF ++ data ++ CRLF)
    with ((head ++ CRLF ++ CRLF) ++ data ++ CRLF)
    by (rewrite <- !app_assoc; reflexivity).
  apply slice_middle.
Qed.

Lemma field_data_no_blank_line (part : bytes) :
  PyBytes.contains (CRLF ++ CRLF) part = false -> field_data part = None.
Proof.
  intros H. unfold field_data.
  unfold PyBytes.contains in H. apply Z.leb_gt in H.
  destruct (find_from_range (CRLF ++ CRLF) part 0) as [E | E];
    [| unfold PyBytes.find in H; lia].
  unfold PyBytes.find. rewrite E. reflexivity.
Qed.

Lemma field_data_no_data (head : bytes) :
  clear_before (CRLF ++ CRLF) head ->
  field_data (head ++ CRLF ++ CRLF ++ CRLF) = None.
Proof.
  intros Hclear.
  set (part := head ++ CRLF ++ CRLF ++ CRLF).
  assert (Ef : PyBytes.find part (CRLF ++ CRLF)
               = Z.of_nat (List.length head)).
  { unfold part.
    replace (head ++ CRLF ++ CRLF ++ CRLF)
      with (head ++ (CRLF ++ CRLF) ++ CRLF)
      by (rewrite <- !app_assoc; reflexivity).
    apply find_first. exact Hclear. }
  assert (Er : PyBytes.rfind part CRLF = Z.of_nat (List.length head) + 4).
  { unfold part.
    replace (head ++ CRLF ++ CRLF ++ CRLF)
      with ((head ++ CRLF ++ CRLF) ++ CRLF)
      by (rewrite <- !app_assoc; reflexivity).
    rewrite rfind_last by discriminate.
    rewrite !length_app. cbn [List.length CRLF]. lia. }
  unfold field_data. rewrite Ef, Er, Z.ltb_irrefl, andb_false_r.
  reflexivity.
Qed.

Lemma field_data_blank_first (rest : bytes) :
  field_data (CRLF ++ CRLF ++ rest) = None.
Proof.
  unfold field_data.
  replace (PyBytes.find (CRLF ++ CRLF ++ rest) (CRLF ++ CRLF)) with 0;
    [reflexivity|].
  unfold PyBytes.find. destruct rest; reflexivity.
Qed.

Lemma field_data_of_part (head data : bytes) :
  head <> [] ->
  clear_before (CRLF ++ CRLF) head ->
  field_data (head ++ CRLF ++ CRLF ++ data ++ CRLF)
  = match data with
    | [] => None
    | _ => Some data
    end.
Proof.
  intros Hh Hclear. destruct data as [| d data].
  - apply field_data_no_data. exact Hclear.
  - apply field_data_some; [exact Hh | discriminate | exact Hclear].
Qed.

Lemma form_field_data (header data : bytes) :
  clear_before (CRLF ++ CRLF) (CRLF ++ header) ->
  field_data (form_field header data)
  = match data with
    | [] => None
    | _ => Some data
    end.
Proof.
  intros Hclear. unfold form_field.
  replace (CRLF ++ header ++ CRLF ++ CRLF ++ data ++ CRLF)
    with ((CRLF ++ header) ++ CRLF ++ CRLF ++ data ++ CRLF)
    by (rewrite <- !app_assoc; reflexivity).
  apply field_data_of_part; [discriminate | exact Hclear].
Qed.

Lemma form_field_names (name header data : bytes) :
  PyBytes.contains name header = true ->
  PyBytes.contains name (form_field header data) = true.
Proof.
  intros H. unfold form_field. apply contains_inside. exact H.
Qed.

Lemma boundary_line_not_empty (B : string) : boundary_line B <> [].
Proof. discriminate. Qed.

(** [content_type.split('boundary=')[1]] *)
Lemma boundary_of_content_type (B : string) :
  str_contains "boundary=" B = false ->
  nth_error (str_split ("multipart/form-data; boundary=" ++ B) "boundary=") 1
  = Some B.
Proof.
  intros HB. unfold str_split. rewrite encode_app.
  change (encode "multipart/form-data; boundary=")
    with (encode "multipart/form-data; " ++ encode "boundary=").
  replace ((encode "multipart/form-data; " ++ encode "boundary=") ++ encode B)
    with (List.concat (map (fun p => p ++ encode "boundary=")
                         [encode "multipart/form-data; "]) ++ encode B)
    by (cbn [map List.concat]; rewrite app_nil_r; reflexivity).
  rewrite split_pieces.
  - cbn [app map nth_error]. rewrite decode_encode_text. reflexivity.
  - discriminate.
  - constructor; [| constructor]. vm_compute. reflexivity.
  - exact HB.
Qed.

Lemma no_boundary (ct : string) :
  str_contains "boundary=" ct = false ->
  nth_error (str_split ct "boundary=") 1 = None.
Proof.
  intros H. unfold str_split, PyBytes.split.
  rewrite split_from_last by exact H. reflexivity.
Qed.

Lemma multipart_content_type (B : string) :
  str_contains "multipart/form-data" ("multipart/form-data; boundary=" ++ B)
  = true.
Proof.
  unfold str_contains. rewrite encode_app.
  change (encode "multipart/form-data; boundary=")
    with (encode "multipart/form-data" ++ encode "; boundary=").
  rewrite <- app_assoc.
  exact (contains_true (encode "multipart/form-data") [] _
           (starts_with_app _ _)).
Qed.

Section HandlerFacts.

Context {P : Pillow} {Rt : Runtime}.

(** The multipart path up to the loop over the parts. *)
Lemma try_process_multipart (req : request) (B : string) (body : bytes) :
  content_type req = ("multipart/form-data; boundary=" ++ B)%string ->
  str_contains "boundary=" B = false ->
  read_body req = Returned body ->
  try_process req =
    ('(image_data, crop_mode) <~
       parts_loop (PyBytes.split body (encode "--" ++ encode B)) None "center" ;;
     match image_data with
     | None => Returned (_send_json_error "Kein Bild gefunden" 400)
     | Some image_data => process_and_respond image_data (JStr crop_mode)
     end).
Proof.
  intros Hct HB Hbody. unfold try_process.
  rewrite Hct, multipart_content_type, boundary_of_content_type by exact HB.
  cbn [and_then]. rewrite Hbody. reflexivity.
Qed.

End HandlerFacts.


(** ** The extraction of a field (server.py, lines 173-176 and 179-181) *)

(** X1: Lines 173-176: from a part made of header lines, a blank line, the
    data and a line break, the handler takes the data as they are, whatever
    bytes they hold, provided the header lines are not empty and hold no
    blank line; empty data, a part without a blank line and a part that
    begins with the blank line give nothing. *)
Theorem field_data_spec :
  (forall head data,
      head <> [] ->
      clear_before (CRLF ++ CRLF) head ->
      field_data (head ++ CRLF ++ CRLF ++ data ++ CRLF)
      = match data with
        | [] => None
        | _ => Some data
        end) /\
  (forall part,
      PyBytes.contains (CRLF ++ CRLF) part = false -> field_data part = None) /\
  (forall rest, field_data (CRLF ++ CRLF ++ rest) = None).
Proof.
  split; [| split].
  - exact field_data_of_part.
  - exact field_data_no_blank_line.
  - exact field_data_blank_first.
Qed.

Lemma field_data_spec_witness :
  field_data
    (TestServer.image_header ++ CRLF ++ CRLF
     ++ [x01; x0d; x0a; x0d; x0a; x02] ++ CRLF)
  = Some [x01; x0d; x0a; x0d; x0a; x02].
Proof.
  apply (proj1 field_data_spec TestServer.image_header
           [x01; x0d; x0a; x0d; x0a; x02]);
    [vm_compute; discriminate | vm_compute; reflexivity].
Defined.

(** ** The multipart path (server.py, lines 159-186) *)

Lemma parts_loop_without_image (parts : list bytes) (crop_mode : string) :
  Forall (fun p => PyBytes.contains (field_name "image") p = false) parts ->
  (exists m, parts_loop parts None crop_mode = Returned (None, m)) \/
  parts_loop parts None crop_mode = Failed UnicodeDecodeError.
Proof.
  intros H. revert crop_mode.
  induction H as [| p parts Hp _ IH]; intros crop_mode; cbn [parts_loop].
  - left. eexists. reflexivity.
  - rewrite Hp.
    destruct (PyBytes.contains (field_name "mode") p); [| apply IH].
    destruct (field_data p) as [data |]; [| apply IH].
    unfold decode. destruct (PyBytes.utf8_valid data); cbn [and_then];
      [apply IH | right; reflexivity].
Qed.

Section UploadFacts.

Context {P : Pillow} {Rt : Runtime}.

(** X2: A multipart upload with one field, the image: its bytes reach
    [process_image] as they were sent, with the crop mode "center"; an empty
    file is answered with 400. *)
Theorem multipart_image_only (req : request) (B : string)
    (header data : bytes) :
  content_type req = ("multipart/form-data; boundary=" ++ B)%string ->
  str_contains "boundary=" B = false ->
  read_body req
    = Returned (boundary_line B ++ form_field header data
                ++ boundary_line B ++ closing) ->
  PyBytes.contains (field_name "image") header = true ->
  clear_before (CRLF ++ CRLF) (CRLF ++ header) ->
  clear_before (boundary_line B) (form_field header data) ->
  PyBytes.contains (boundary_line B) closing = false ->
  try_process req
  = match data with
    | [] => Returned (_send_json_error "Kein Bild gefunden" 400)
    | _ => process_and_respond data (JStr "center")
    end.
Proof.
  intros Hct HB Hbody Hname Hblank Hclear Htail.
  rewrite (try_process_multipart req B _ Hct HB Hbody).
  fold (boundary_line B).
  replace (boundary_line B ++ form_field header data
           ++ boundary_line B ++ closing)
    with (boundary_line B
          ++ List.concat (map (fun p => p ++ boundary_line B)
                            [form_field header data]) ++ closing)
    by (cbn [map List.concat]; rewrite app_nil_r, <- app_assoc; reflexivity).
  rewrite split_body;
    [| apply boundary_line_not_empty | repeat constructor; exact Hclear
     | exact Htail].
  cbn [app parts_loop].
  change (PyBytes.contains (field_name "image") []) with false.
  change (PyBytes.contains (field_name "mode") []) with false.
  cbv iota.
  rewrite (form_field_names _ _ _ Hname), (form_field_data _ _ Hblank).
  change (PyBytes.contains (field_name "image") closing) with false.
  change (PyBytes.contains (field_name "mode") closing) with false.
  destruct data; reflexivity.
Qed.

(** X3: A multipart upload with the image field and then the mode field: the
    image bytes reach [process_image] with the mode, decoded and stripped of
    surrounding white space; a mode that is not UTF-8 fails the request. *)
Theorem multipart_image_and_mode (req : request) (B : string)
    (header data mode_header mode : bytes) :
  content_type req = ("multipart/form-data; boundary=" ++ B)%string ->
  str_contains "boundary=" B = false ->
  read_body req
    = Returned (boundary_line B ++ form_field header data
                ++ boundary_line B ++ form_field mode_header mode
                ++ boundary_line B ++ closing) ->
  PyBytes.contains (field_name "image") header = true ->
  clear_before (CRLF ++ CRLF) (CRLF ++ header) ->
  data <> [] ->
  PyBytes.contains (field_name "image") (form_field mode_header mode)
    = false ->
  PyBytes.contains (field_name "mode") mode_header = true ->
  clear_before (CRLF ++ CRLF) (CRLF ++ mode_header) ->
  mode <> [] ->
  clear_before (boundary_line B) (form_field header data) ->
  clear_before (boundary_line B) (form_field mode_header mode) ->
  PyBytes.contains (boundary_line B) closing = false ->
  try_process req
  = (text <~ decode mode ;;
     process_and_respond data (JStr (str_strip text))).
Proof.
  intros Hct HB Hbody Hname Hblank Hdata Hnot Hmname Hmblank Hmode
         Hclear Hmclear Htail.
  rewrite (try_process_multipart req B _ Hct HB Hbody).
  fold (boundary_line B).
  replace (boundary_line B ++ form_field header data
           ++ boundary_line B ++ form_field mode_header mode
           ++ boundary_line B ++ closing)
    with (boundary_line B
          ++ List.concat (map (fun p => p ++ boundary_line B)
                            [form_field header data;
                             form_field mode_header mode]) ++ closing)
    by (cbn [map List.concat]; rewrite app_nil_r, <- !app_assoc; reflexivity).
  rewrite split_body;
    [| apply boundary_line_not_empty
     | repeat constructor; assumption
     | exact Htail].
  cbn [app parts_loop].
  change (PyBytes.contains (field_name "image") []) with false.
  change (PyBytes.contains (field_name "mode") []) with false.
  cbv iota.
  rewrite (form_field_names _ _ _ Hname), (form_field_data _ _ Hblank).
  rewrite Hnot, (form_field_names _ _ _ Hmname), (form_field_data _ _ Hmblank).
  change (PyBytes.contains (field_name "image") closing) with false.
  change (PyBytes.contains (field_name "mode") closing) with false.
  destruct data as [| d0 data]; [contradiction|].
  destruct mode as [| m0 mode]; [contradiction|].
  destruct (decode (m0 :: mode)) as [text | e]; reflexivity.
Qed.

(** X4: A multipart request whose Content-Type names no boundary is answered
    with 500: the index error of line 161 is caught by the handler, whatever
    reading the body would have done. *)
Theorem multipart_without_boundary (req : request) :
  str_contains "multipart/form-data" (content_type req) = true ->
  str_contains "boundary=" (content_type req) = false ->
  _handle_process req
  = _send_json_error
      ("Fehler bei der Verarbeitung: " ++ exception_text (Builtin IndexError))
      500.
Proof.
  intros Hm Hb. unfold _handle_process, try_process.
  rewrite Hm, (no_boundary _ Hb). reflexivity.
Qed.

(** X5: A multipart body in which [name="image"] occurs nowhere never
    reaches [process_image]: the request is refused with "Kein Bild
    gefunden", or it fails on a mode field that is not UTF-8 or on a
    Content-Type without boundary. *)
Theorem upload_without_image_field (req : request) (body : bytes) :
  str_contains "multipart/form-data" (content_type req) = true ->
  read_body req = Returned body ->
  PyBytes.contains (field_name "image") body = false ->
  try_process req = Returned (_send_json_error "Kein Bild gefunden" 400) \/
  try_process req = Failed UnicodeDecodeError \/
  try_process req = Failed (Builtin IndexError).
Proof.
  intros Hm Hbody Hno. unfold try_process. rewrite Hm.
  destruct (nth_error (str_split (content_type req) "boundary=") 1) as [b |];
    cbn [and_then]; [| right; right; reflexivity].
  rewrite Hbody. cbn [and_then].
  destruct (parts_loop_without_image
              (PyBytes.split body (encode "--" ++ encode b)) "center"
              (split_without _ _ _ Hno)) as [[m E] | E];
    rewrite E; cbn [and_then]; auto.
Qed.

End UploadFacts.

Lemma multipart_image_only_witness :
  @try_process TestCodec.pillow TestServer.runtime
    (TestServer.post (TestServer.image_only TestCodec.portrait))
  = @process_and_respond TestCodec.pillow TestServer.runtime
      TestCodec.portrait (JStr "center").
Proof.
  apply (@multipart_image_only TestCodec.pillow TestServer.runtime
           (TestServer.post (TestServer.image_only TestCodec.portrait))
           "XYZ" TestServer.image_header TestCodec.portrait);
    vm_compute; reflexivity.
Defined.

Lemma multipart_image_and_mode_witness :
  @try_process TestCodec.pillow TestServer.runtime
    (TestServer.post
       (TestServer.upload TestCodec.portrait (encode " bottom ")))
  = @process_and_respond TestCodec.pillow TestServer.runtime
      TestCodec.portrait (JStr "bottom").
Proof.
  apply (@multipart_image_and_mode TestCodec.pillow TestServer.runtime
           (TestServer.post
              (TestServer.upload TestCodec.portrait (encode " bottom ")))
           "XYZ" TestServer.image_header TestCodec.portrait
           TestServer.mode_header (encode " bottom "));
    first [vm_compute; reflexivity | vm_compute; discriminate].
Defined.

Lemma multipart_without_boundary_witness :
  @_handle_process TestCodec.pillow TestServer.runtime
    (mkRequest "/api/process" "multipart/form-data"
       (Failed (Builtin ValueError)))
  = @_send_json_error TestServer.runtime
      "Fehler bei der Verarbeitung: list index out of range" 500.
Proof.
  apply (@multipart_without_boundary TestCodec.pillow TestServer.runtime);
    vm_compute; reflexivity.
Defined.

Lemma upload_without_image_field_witness :
  let req :=
    TestServer.post
      (boundary_line "XYZ"
       ++ form_field TestServer.mode_header (encode "top")
       ++ boundary_line "XYZ" ++ closing) in
  @try_process TestCodec.pillow TestServer.runtime req
    = Returned (@_send_json_error TestServer.runtime "Kein Bild gefunden" 400)
  \/ @try_process TestCodec.pillow TestServer.runtime req
    = Failed UnicodeDecodeError
  \/ @try_process TestCodec.pillow TestServer.runtime req
    = Failed (Builtin IndexError).
Proof.
  apply (@upload_without_image_field TestCodec.pillow TestServer.runtime
           (TestServer.post
              (boundary_line "XYZ"
               ++ form_field TestServer.mode_header (encode "top")
               ++ boundary_line "XYZ" ++ closing))
           (boundary_line "XYZ"
            ++ form_field TestServer.mode_header (encode "top")
            ++ boundary_line "XYZ" ++ closing));
    vm_compute; reflexivity.
Defined.

(** ** The JSON path (server.py, lines 188-200) *)

Lemma comma_clear (a : string) :
  str_contains "," a = false -> clear_before (encode ",") (encode a).
Proof.
  intros H. unfold clear_before.
  change (removelast (encode ",")) with (@nil byte).
  rewrite app_nil_r. exact H.
Qed.

Lemma comma_found (a r : string) : str_contains "," (a ++ "," ++ r) = true.
Proof.
  unfold str_contains. rewrite !encode_app.
  apply contains_true. apply starts_with_app.
Qed.

Lemma strip_data_url_returns (s : string) :
  exists payload, strip_data_url s = Returned payload.
Proof.
  unfold strip_data_url.
  destruct (str_contains "," s) eqn:E; [| eexists; reflexivity].
  destruct (first_occurrence _ _ E) as (a & r & Es & Hno).
  unfold str_split, PyBytes.split. rewrite Es.
  rewrite split_from_step by (try discriminate; exact Hno).
  destruct (PyBytes.split_from (encode ",") r 0 []) as [| p ps] eqn:Ep.
  - exfalso. exact (split_from_not_nil _ _ _ _ Ep).
  - cbn [map nth_error]. eexists. reflexivity.
Qed.

Lemma strip_data_url_one_comma (a b : string) :
  str_contains "," a = false -> str_contains "," b = false ->
  strip_data_url (a ++ "," ++ b) = Returned b.
Proof.
  intros Ha Hb. unfold strip_data_url. rewrite comma_found.
  unfold str_split, PyBytes.split. rewrite !encode_app.
  rewrite split_from_step;
    [| discriminate | apply clear_before_spec; apply comma_clear; exact Ha].
  rewrite split_from_last by exact Hb.
  cbn [app rev map nth_error]. rewrite decode_encode_text. reflexivity.
Qed.

Lemma strip_data_url_two_commas (a b rest : string) :
  str_contains "," a = false -> str_contains "," b = false ->
  strip_data_url (a ++ "," ++ b ++ "," ++ rest) = Returned b.
Proof.
  intros Ha Hb. unfold strip_data_url. rewrite comma_found.
  unfold str_split, PyBytes.split. rewrite !encode_app.
  rewrite split_from_step;
    [| discriminate | apply clear_before_spec; apply comma_clear; exact Ha].
  rewrite split_from_step;
    [| discriminate | apply clear_before_spec; apply comma_clear; exact Hb].
  cbn [app rev map nth_error]. rewrite decode_encode_text. reflexivity.
Qed.

(** X6: Lines 196-197: of a data URL the handler keeps what stands between
    the first comma and the second, or the end; a string without comma is
    kept whole, and the index of line 197 is always in range. *)
Theorem strip_data_url_spec :
  (forall s, exists payload, strip_data_url s = Returned payload) /\
  (forall s, str_contains "," s = false -> strip_data_url s = Returned s) /\
  (forall a b, str_contains "," a = false -> str_contains "," b = false ->
               strip_data_url (a ++ "," ++ b) = Returned b) /\
  (forall a b rest, str_contains "," a = false -> str_contains "," b = false ->
                    strip_data_url (a ++ "," ++ b ++ "," ++ rest) = Returned b).
Proof.
  split; [| split; [| split]].
  - exact strip_data_url_returns.
  - intros s H. unfold strip_data_url. rewrite H. reflexivity.
  - exact strip_data_url_one_comma.
  - exact strip_data_url_two_commas.
Qed.

Lemma strip_data_url_spec_witness :
  strip_data_url "data:image/png;base64,iVBORw0KGgo="
  = Returned "iVBORw0KGgo="%string.
Proof.
  apply (proj1 (proj2 (proj2 strip_data_url_spec))
           "data:image/png;base64"%string "iVBORw0KGgo="%string);
    vm_compute; reflexivity.
Defined.

Section AnswerFacts.

Context {P : Pillow} {Rt : Runtime}.

(** What a response of [process_and_respond] is made of. *)
Lemma process_and_respond_inv (image_data : bytes) (crop_mode : json)
    (r : response) :
  process_and_respond image_data crop_mode = Returned r ->
  exists jpeg inf,
    process_image image_data (crop_mode_text crop_mode) = Ok (jpeg, inf) /\
    r = _send_json_response
          (JObj [("success", JBool true);
                 ("image", JStr ("data:image/jpeg;base64," ++ b64encode jpeg));
                 ("info", info_json inf crop_mode)]%string) 200.
Proof.
  unfold process_and_respond. intros H.
  destruct (process_image image_data (crop_mode_text crop_mode))
    as [[jpeg inf] | e]; cbn [of_result and_then] in H; [| discriminate H].
  injection H as <-. exists jpeg, inf. split; reflexivity.
Qed.

(** What the [try] block returns is a success with status 200 or one of the
    two refusals with status 400. *)
Lemma try_process_inv (req : request) (r : response) :
  try_process req = Returned r ->
  (exists image_data crop_mode jpeg inf,
      process_image image_data (crop_mode_text crop_mode) = Ok (jpeg, inf) /\
      r = _send_json_response
            (JObj [("success", JBool true);
                   ("image", JStr ("data:image/jpeg;base64," ++ b64encode jpeg));
                   ("info", info_json inf crop_mode)]%string) 200) \/
  r = _send_json_error "Kein Bild gefunden" 400 \/
  r = _send_json_error "Ungültiger Content-Type" 400.
Proof.
  unfold try_process. intros H.
  destruct (str_contains "multipart/form-data" (content_type req)).
  - destruct (nth_error _ 1); cbn [and_then] in H; [| discriminate H].
    destruct (read_body req); cbn [and_then] in H; [| discriminate H].
    destruct (parts_loop _ _ _) as [[[image_data |] crop_mode] | e];
      cbn [and_then] in H; [| | discriminate H].
    + left. destruct (process_and_respond_inv _ _ _ H) as (jpeg & inf & Hp & Hr).
      exists image_data, (JStr crop_mode), jpeg, inf. auto.
    + right. left. injection H as <-. reflexivity.
  - destruct (str_contains "application/json" (content_type req)).
    + destruct (read_body req); cbn [and_then] in H; [| discriminate H].
      destruct (json_loads _) as [data |]; cbn [and_then] in H; [| discriminate H].
      destruct (json_get data "image" _); cbn [and_then] in H; [| discriminate H].
      destruct (decode_image _) as [image_data |]; cbn [and_then] in H;
        [| discriminate H].
      destruct (json_get data "mode" _) as [crop_mode |]; cbn [and_then] in H;
        [| discriminate H].
      left. destruct (process_and_respond_inv _ _ _ H) as (jpeg & inf & Hp & Hr).
      exists image_data, crop_mode, jpeg, inf. auto.
    + right. right. injection H as <-. reflexivity.
Qed.

(** X7: Every POST is answered, and no exception leaves the handler.
    Another path than /api/process gets the 404 page.  Otherwise the answer
    is a JSON object: with status 200 the success object of a run of
    [process_image] that returned, with status 400 one of two refusals, with
    status 500 the text of the exception that was caught. *)
Theorem do_POST_answers (req : request) :
  match do_POST req with
  | ErrorPage code message =>
      path req <> "/api/process"%string /\ code = 404
  | Responded r =>
      path req = "/api/process"%string /\
      ((status r = 200 /\
        exists image_data crop_mode jpeg inf,
          process_image image_data (crop_mode_text crop_mode) = Ok (jpeg, inf) /\
          body r =
            encode (json_dumps
              (JObj [("success", JBool true);
                     ("image",
                      JStr ("data:image/jpeg;base64," ++ b64encode jpeg));
                     ("info", info_json inf crop_mode)]%string))) \/
       (status r = 400 /\
        exists message,
          (message = "Kein Bild gefunden"%string \/
           message = "Ungültiger Content-Type"%string) /\
          body r =
            encode (json_dumps
              (JObj [("success", JBool false);
                     ("error", JStr message)]%string))) \/
       (status r = 500 /\
        exists e,
          body r =
            encode (json_dumps
              (JObj [("success", JBool false);
                     ("error",
                      JStr ("Fehler bei der Verarbeitung: "
                            ++ exception_text e))]%string))))
  end.
Proof.
  unfold do_POST.
  destruct (path req =? "/api/process")%string eqn:Ep.
  - apply String.eqb_eq in Ep. split; [exact Ep|].
    unfold _handle_process.
    destruct (try_process req) as [r | e] eqn:Et.
    + destruct (try_process_inv _ _ Et)
        as [(image_data & crop_mode & jpeg & inf & Hp & ->) | [-> | ->]].
      * left. split; [reflexivity|].
        exists image_data, crop_mode, jpeg, inf. split; [exact Hp | reflexivity].
      * right. left. split; [reflexivity|]. eexists. split; [left|]; reflexivity.
      * right. left. split; [reflexivity|]. eexists. split; [right|]; reflexivity.
    + right. right. split; [reflexivity|]. exists e. reflexivity.
  - apply String.eqb_neq in Ep. split; [exact Ep | reflexivity].
Qed.

(** X9: The JSON path: the image member, a data URL or bare base64 text, is
    decoded and reaches [process_image] with the mode member, "center" when
    there is none. *)
Theorem json_upload (req : request) (body : bytes) (data : json)
    (prefix payload : string) (image_data : bytes) :
  str_contains "multipart/form-data" (content_type req) = false ->
  str_contains "application/json" (content_type req) = true ->
  read_body req = Returned body ->
  json_loads body = Returned data ->
  json_get data "image" (JStr EmptyString)
    = Returned (JStr (prefix ++ "," ++ payload)) ->
  str_contains "," prefix = false ->
  str_contains "," payload = false ->
  b64decode payload = Returned image_data ->
  try_process req =
    (crop_mode <~ json_get data "mode" (JStr "center") ;;
     process_and_respond image_data crop_mode).
Proof.
  intros Hm Hj Hbody Hload Himg Hp Hq Hdec.
  unfold try_process. rewrite Hm, Hj, Hbody. cbn [and_then].
  rewrite Hload. cbn [and_then]. rewrite Himg. cbn [and_then decode_image].
  rewrite (strip_data_url_one_comma prefix payload Hp Hq).
  cbn [and_then]. rewrite Hdec. reflexivity.
Qed.

(** X10: On the JSON path a body that is no object, or whose image member is
    no string, is answered with 500, and [process_image] is not run. *)
Theorem json_image_must_be_text (req : request) (body : bytes) (data : json) :
  str_contains "multipart/form-data" (content_type req) = false ->
  str_contains "application/json" (content_type req) = true ->
  read_body req = Returned body ->
  json_loads body = Returned data ->
  (forall s, json_get data "image" (JStr EmptyString) <> Returned (JStr s)) ->
  exists e,
    try_process req = Failed e /\
    (e = TypeError \/ e = Builtin AttributeError) /\
    _handle_process req
    = _send_json_error
        ("Fehler bei der Verarbeitung: " ++ exception_text e) 500.
Proof.
  intros Hm Hj Hbody Hload Hnot.
  assert (Ht : exists e, try_process req = Failed e /\
                         (e = TypeError \/ e = Builtin AttributeError)).
  { unfold try_process. rewrite Hm, Hj, Hbody. cbn [and_then].
    rewrite Hload. cbn [and_then].
    destruct (json_get data "image" (JStr EmptyString)) as [v | e] eqn:Ev.
    - cbn [and_then]. destruct v; cbn [decode_image and_then];
        try (eexists; split; [reflexivity | auto]).
      + exfalso. apply (Hnot s). reflexivity.
      + destruct (existsb is_comma items); eexists; split;
          first [reflexivity | auto].
      + destruct (existsb _ members); eexists; split;
          first [reflexivity | auto].
    - cbn [and_then]. exists e. split; [reflexivity|].
      destruct data; cbn in Ev; try (injection Ev as <-; auto).
      destruct (find _ members); discriminate Ev. }
  destruct Ht as (e & Et & He). exists e. split; [exact Et|]. split; [exact He|].
  unfold _handle_process. rewrite Et. reflexivity.
Qed.

End AnswerFacts.

Lemma json_upload_witness :
  @try_process TestCodec.pillow TestServer.runtime
    (TestServer.post_json
       (x7b :: encode "data:x;base64," ++ TestCodec.portrait))
  = @process_and_respond TestCodec.pillow TestServer.runtime
      TestCodec.portrait (JStr "center").
Proof.
  apply (@json_upload TestCodec.pillow TestServer.runtime
           (TestServer.post_json
              (x7b :: encode "data:x;base64," ++ TestCodec.portrait))
           (x7b :: encode "data:x;base64," ++ TestCodec.portrait)
           (JObj [("image"%string,
                   JStr (string_of_list_byte
                           (encode "data:x;base64," ++ TestCodec.portrait)))])
           "data:x;base64"%string (string_of_list_byte TestCodec.portrait)
           TestCodec.portrait);
    vm_compute; reflexivity.
Defined.

Lemma json_image_must_be_text_witness :
  exists e,
    @try_process TestCodec.pillow TestServer.runtime
      (TestServer.post_json [x5b]) = Failed e /\
    (e = TypeError \/ e = Builtin AttributeError) /\
    @_handle_process TestCodec.pillow TestServer.runtime
      (TestServer.post_json [x5b])
    = @_send_json_error TestServer.runtime
        ("Fehler bei der Verarbeitung: "
         ++ @exception_text TestServer.runtime e) 500.
Proof.
  apply (@json_image_must_be_text TestCodec.pillow TestServer.runtime
           (TestServer.post_json [x5b]) [x5b] (JArr []));
    try (vm_compute; reflexivity).
  intros s H. vm_compute in H. discriminate H.
Defined.

(** ** More on the transform *)

(** X11: The crop rectangle is empty exactly for a raster of height 1, where
    its width is 0; its height is never 0. *)
Theorem crop_empty_iff_height_one (w h : Z) (crop_mode : string) :
  valid_dim w -> valid_dim h ->
  exists r,
    crop_region w h crop_mode = Ok r /\
    1 <= crop_height r /\ 0 <= crop_width r /\
    (crop_width r = 0 <-> h = 1).
Proof.
  intros Hw Hh. eexists. split; [apply crop_region_exact; assumption|].
  unfold valid_dim, MAX_DIM in Hw, Hh.
  destruct (Z.ltb_spec (9 * h) (16 * w)) as [Hwide | Htall];
    cbn [crop_width crop_height].
  - pose proof (Z.div_mod (9 * h) 16 ltac:(lia)).
    pose proof (Z.mod_pos_bound (9 * h) 16 ltac:(lia)).
    repeat split; lia.
  - assert (1 <= 16 * w / 9) by (apply Z.div_le_lower_bound; lia).
    repeat split; lia.
Qed.

Lemma crop_empty_iff_height_one_witness :
  exists r,
    crop_region 5 1 "center" = Ok r /\
    1 <= crop_height r /\ 0 <= crop_width r /\
    (crop_width r = 0 <-> 1 = 1).
Proof.
  apply (crop_empty_iff_height_one 5 1 "center");
    unfold valid_dim, MAX_DIM; lia.
Defined.

(** X12: Where the crop rectangle lies: it is centred horizontally, the
    margins differ by one pixel at most; vertically it touches the upper
    edge for "top", the lower edge for "bottom", and is centred for any
    other mode. *)
Theorem crop_anchoring (w h : Z) (crop_mode : string) :
  valid_dim w -> valid_dim h ->
  exists r,
    crop_region w h crop_mode = Ok r /\
    let left_margin := crop_x r in
    let right_margin := w - (crop_x r + crop_width r) in
    let upper_margin := crop_y r in
    let lower_margin := h - (crop_y r + crop_height r) in
    left_margin <= right_margin <= left_margin + 1 /\
    (crop_mode = "top"%string -> upper_margin = 0) /\
    (crop_mode = "bottom"%string -> lower_margin = 0) /\
    (crop_mode <> "top"%string -> crop_mode <> "bottom"%string ->
     upper_margin <= lower_margin <= upper_margin + 1).
Proof.
  intros Hw Hh. eexists. split; [apply crop_region_exact; assumption|].
  unfold valid_dim, MAX_DIM in Hw, Hh.
  destruct (Z.ltb_spec (9 * h) (16 * w)) as [Hwide | Htall];
    cbn [crop_x crop_y crop_width crop_height]; cbv zeta.
  - assert (9 * h / 16 <= w) by (apply Z.div_le_upper_bound; lia).
    pose proof (Z.div_mod (w - 9 * h / 16) 2 ltac:(lia)).
    pose proof (Z.mod_pos_bound (w - 9 * h / 16) 2 ltac:(lia)).
    repeat split; intros; lia.
  - assert (16 * w / 9 <= h) by (apply Z.div_le_upper_bound; lia).
    pose proof (Z.div_mod (h - 16 * w / 9) 2 ltac:(lia)).
    pose proof (Z.mod_pos_bound (h - 16 * w / 9) 2 ltac:(lia)).
    split; [lia|]. split; [| split].
    + intros ->. reflexivity.
    + intros ->. cbn [String.eqb Ascii.eqb Bool.eqb]. lia.
    + intros Ht Hb. apply String.eqb_neq in Ht, Hb. rewrite Ht, Hb. lia.
Qed.


Lemma crop_anchoring_witness :
  exists r,
    crop_region 1000 2000 "bottom" = Ok r /\
    let left_margin := crop_x r in
    let right_margin := 1000 - (crop_x r + crop_width r) in
    let upper_margin := crop_y r in
    let lower_margin := 2000 - (crop_y r + crop_height r) in
    left_margin <= right_margin <= left_margin + 1 /\
    ("bottom"%string = "top"%string -> upper_margin = 0) /\
    ("bottom"%string = "bottom"%string -> lower_margin = 0) /\
    ("bottom"%string <> "top"%string -> "bottom"%string <> "bottom"%string ->
     upper_margin <= lower_margin <= upper_margin + 1).
Proof.
  apply (crop_anchoring 1000 2000 "bottom");
    unfold valid_dim, MAX_DIM; lia.
Defined.

Section MoreTransformFacts.

Context {P : Pillow}.

(** X13: The size the metadata reports is the length of the JPEG returned. *)
Theorem file_size_is_length (data : bytes) (crop_mode : string)
    (jpeg : bytes) (inf : info) :
  process_image data crop_mode = Ok (jpeg, inf) ->
  file_size inf = Z.of_nat (List.length jpeg).
Proof.
  intros H.
  destruct (process_image_inv _ _ _ _ H)
    as (img0 & img1 & cropped & resized & box & _ & _ & _ & _ & _ & _ & ->).
  reflexivity.
Qed.

(** X14: A raster without height, once oriented, fails the call at the ratio
    of line 91 with a division by zero. *)
Theorem zero_height_fails (data : bytes) (crop_mode : string) (img : image) :
  Image_open data = Ok img ->
  orientation_readable img ->
  snd (oriented_size img) = 0 ->
  process_image data crop_mode = Raise ZeroDivisionError.
Proof.
  intros Hopen Hread Hzero.
  destruct (correct_orientation_cases img)
    as [(e & He & Hc & _) | (img1 & E1 & Hs & _)].
  { unfold orientation_readable in Hread. rewrite He in Hread. congruence. }
  unfold process_image. rewrite Hopen. cbn [bind]. rewrite E1. cbn [bind].
  rewrite to_rgb_size, Hs.
  destruct (oriented_size img) as [w h]. cbn [snd] in Hzero. subst h.
  reflexivity.
Qed.

(** X15: For a source wider than 9:16 the crop mode changes nothing but the
    crop_mode field of the metadata. *)
Theorem crop_mode_irrelevant_for_wide (data : bytes) (mode1 mode2 : string)
    (img : image) (jpeg : bytes) (inf : info) :
  Image_open data = Ok img ->
  valid_dim (fst (oriented_size img)) ->
  valid_dim (snd (oriented_size img)) ->
  9 * snd (oriented_size img) < 16 * fst (oriented_size img) ->
  process_image data mode1 = Ok (jpeg, inf) ->
  process_image data mode2
  = Ok (jpeg,
        mkInfo (original_width inf) (original_height inf) mode2
          (result_width inf) (result_height inf) (file_size inf)).
Proof.
  intros Hopen Hw Hh Hwide H.
  destruct (process_image_inv _ _ _ _ H)
    as (img0 & img1 & cropped & resized & box & H0 & H1 & Hb & Hc & Hr & Hj & ->).
  rewrite Hopen in H0. injection H0 as <-.
  assert (Hs : size img1 = oriented_size img).
  { destruct (correct_orientation_cases img)
      as [(e & _ & _ & He) | (img' & E' & Hs & _)].
    - rewrite He in H1. discriminate H1.
    - rewrite E' in H1. injection H1 as <-. exact Hs. }
  rewrite <- Hs in Hw, Hh, Hwide.
  assert (Hb2 : crop_region (fst (size img1)) (snd (size img1)) mode2 = Ok box).
  { rewrite <- Hb. rewrite !crop_region_exact by assumption.
    replace (9 * snd (size img1) <? 16 * fst (size img1)) with true
      by (symmetry; apply Z.ltb_lt; exact Hwide).
    reflexivity. }
  exact (process_image_run _ _ _ _ _ _ _ _ Hopen H1 Hb2 Hc Hr Hj).
Qed.


(** A valid source is processed, whatever the crop mode. *)
Lemma process_image_valid (data : bytes) (m : string) (img : image) :
  Image_open data = Ok img ->
  valid_source img ->
  exists jpeg,
    process_image data m
    = Ok (jpeg,
          mkInfo (fst (oriented_size img)) (snd (oriented_size img)) m
            TARGET_WIDTH TARGET_HEIGHT (Z.of_nat (List.length jpeg))).
Proof.
  intros Hopen (Hw & Hh & Hexif).
  destruct (correct_orientation_cases img)
    as [(e & He & Hc & _) | (img1 & E1 & Hs & _)].
  { unfold orientation_readable in Hexif. rewrite He in Hexif. congruence. }
  assert (Hdims : valid_dim (fst (size img1)) /\ valid_dim (snd (size img1))).
  { rewrite Hs. unfold oriented_size. destruct (size img) as [w h].
    cbn [fst snd] in Hw, Hh. destruct (_ || _); cbn [fst snd]; auto. }
  destruct Hdims as [Hw1 Hh1].
  destruct (crop_region_bounds _ _ m Hw1 Hh1)
    as (box & Eb & Hx & Hy & Hcw & Hch & _ & _).
  assert (Ec : exists cropped,
             crop (to_rgb img1)
               (crop_x box, crop_y box, crop_x box + crop_width box,
                crop_y box + crop_height box) = Ok cropped /\
             mode cropped = "RGB"%string).
  { unfold crop.
    replace (crop_x box + crop_width box <? crop_x box) with false
      by (symmetry; apply Z.ltb_ge; lia).
    replace (crop_y box + crop_height box <? crop_y box) with false
      by (symmetry; apply Z.ltb_ge; lia).
    eexists. split; [reflexivity|]. apply to_rgb_mode. }
  destruct Ec as (cropped & Ec & Hmc).
  set (resized := mkImage (mode cropped) (TARGET_WIDTH, TARGET_HEIGHT)
                    (Raise AttributeError)
                    (core_resize_lanczos (TARGET_WIDTH, TARGET_HEIGHT)
                       (im cropped))).
  assert (Er : resize cropped (TARGET_WIDTH, TARGET_HEIGHT) = Ok resized)
    by reflexivity.
  assert (Ej : save_jpeg resized JPEG_QUALITY true
               = Ok (core_jpeg_encode (mode resized) (size resized)
                       (im resized) JPEG_QUALITY true)).
  { unfold save_jpeg. cbn [mode resized]. rewrite Hmc. reflexivity. }
  eexists. rewrite <- Hs.
  exact (process_image_run _ _ _ _ _ _ _ _ Hopen E1 Eb Ec Er Ej).
Qed.

(** X16: The error taxonomy of the transform: when [process_image] raises,
    the decoder raised that exception, or reading the EXIF data raised it
    and it is none of the three classes of line 75, or the raster has a
    width or a height that is not a valid dimension. *)
Theorem process_image_failure_causes (data : bytes) (crop_mode : string)
    (e : exception) :
  process_image data crop_mode = Raise e ->
  Image_open data = Raise e \/
  exists img,
    Image_open data = Ok img /\
    ((_getexif img = Raise e /\ caught e = false) \/
     ~ valid_dim (fst (size img)) \/ ~ valid_dim (snd (size img))).
Proof.
  intros H. destruct (Image_open data) as [img | e0] eqn:Hopen.
  - right. exists img. split; [reflexivity|].
    destruct (correct_orientation_cases img)
      as [(e1 & He & Hc & Hraise) | (img1 & _ & _ & Hread)].
    + left. unfold process_image in H. rewrite Hopen in H. cbn [bind] in H.
      rewrite Hraise in H. cbn [bind] in H. injection H as <-. auto.
    + right.
      destruct (Z_le_dec 1 (fst (size img))) as [Hw1 |];
        [| left; unfold valid_dim; lia].
      destruct (Z_le_dec (fst (size img)) MAX_DIM) as [Hw2 |];
        [| left; unfold valid_dim; lia].
      destruct (Z_le_dec 1 (snd (size img))) as [Hh1 |];
        [| right; unfold valid_dim; lia].
      destruct (Z_le_dec (snd (size img)) MAX_DIM) as [Hh2 |];
        [| right; unfold valid_dim; lia].
      exfalso.
      destruct (process_image_valid data crop_mode img Hopen) as (jpeg & E).
      { unfold valid_source, valid_dim. auto. }
      rewrite E in H. discriminate H.
  - left. unfold process_image in H. rewrite Hopen in H. cbn [bind] in H.
    injection H as <-. reflexivity.
Qed.

End MoreTransformFacts.

Lemma file_size_is_length_witness :
  exists jpeg inf,
    @process_image TestCodec.pillow TestCodec.portrait "top"
      = Ok (jpeg, inf) /\
    file_size inf = Z.of_nat (List.length jpeg).
Proof.
  eexists. eexists. split; [vm_compute; reflexivity|].
  apply (@file_size_is_length TestCodec.pillow TestCodec.portrait "top").
  vm_compute; reflexivity.
Defined.

Lemma zero_height_fails_witness :
  @process_image TestCodec.pillow [x00; x00; x05; x00; x00; x01] "center"
  = Raise ZeroDivisionError.
Proof.
  apply (@zero_height_fails TestCodec.pillow
           [x00; x00; x05; x00; x00; x01] "center"
           (mkImage "RGB" (5, 0) (Ok None) tt));
    [vm_compute; reflexivity | exact I | reflexivity].
Defined.

Lemma crop_mode_irrelevant_for_wide_witness :
  exists jpeg inf,
    @process_image TestCodec.pillow TestCodec.landscape "top"
      = Ok (jpeg, inf) /\
    @process_image TestCodec.pillow TestCodec.landscape "bottom"
    = Ok (jpeg,
          mkInfo (original_width inf) (original_height inf) "bottom"
            (result_width inf) (result_height inf) (file_size inf)).
Proof.
  eexists. eexists. split; [vm_compute; reflexivity|].
  apply (@crop_mode_irrelevant_for_wide TestCodec.pillow TestCodec.landscape
           "top" "bottom" (mkImage "RGB" (4000, 3000) (Ok None) tt));
    first [vm_compute; reflexivity
          | unfold valid_dim, MAX_DIM; cbn; lia
          | cbn; lia].
Defined.

Lemma process_image_failure_causes_witness :
  @Image_open TestCodec.pillow TestCodec.broken_exif = Raise SyntaxError \/
  exists img,
    @Image_open TestCodec.pillow TestCodec.broken_exif = Ok img /\
    ((_getexif img = Raise SyntaxError /\ caught SyntaxError = false) \/
     ~ valid_dim (fst (size img)) \/ ~ valid_dim (snd (size img))).
Proof.
  apply (@process_image_failure_causes TestCodec.pillow TestCodec.broken_exif
           "center" SyntaxError).
  vm_compute; reflexivity.
Defined.

Section SuccessFacts.

Context {P : Pillow} {Rt : Runtime}.

(** X17: Lines 206-218 on a valid source: the answer has status 200, and its
    body is the JSON text of the success object, with the JPEG of the
    transform as a data URL and with the metadata: the size of the oriented
    raster, the crop mode as the request gave it, 1080 and 1920, and the
    length of the JPEG. *)
Theorem valid_image_answered (data : bytes) (crop_mode : json) (img : image) :
  Image_open data = Ok img ->
  valid_source img ->
  exists jpeg inf r,
    process_image data (crop_mode_text crop_mode) = Ok (jpeg, inf) /\
    process_and_respond data crop_mode = Returned r /\
    status r = 200 /\
    body r =
      encode (json_dumps
        (JObj [("success", JBool true);
               ("image", JStr ("data:image/jpeg;base64," ++ b64encode jpeg));
               ("info",
                JObj [("original_width", JInt (fst (oriented_size img)));
                      ("original_height", JInt (snd (oriented_size img)));
                      ("crop_mode", crop_mode);
                      ("result_width", JInt 1080);
                      ("result_height", JInt 1920);
                      ("file_size",
                       JInt (Z.of_nat (List.length jpeg)))])]%string)).
Proof.
  intros Hopen Hvalid.
  destruct (process_image_valid data (crop_mode_text crop_mode) img
              Hopen Hvalid) as (jpeg & E).
  eexists. eexists. eexists. split; [exact E|].
  unfold process_and_respond. rewrite E. cbn [of_result and_then].
  split; [reflexivity|]. split; reflexivity.
Qed.

End SuccessFacts.

Lemma valid_image_answered_witness :
  exists jpeg inf r,
    @process_image TestCodec.pillow TestCodec.portrait
      (crop_mode_text (JInt 7)) = Ok (jpeg, inf) /\
    @process_and_respond TestCodec.pillow TestServer.runtime
      TestCodec.portrait (JInt 7) = Returned r /\
    status r = 200 /\
    body r =
      encode (@json_dumps TestServer.runtime
        (JObj [("success", JBool true);
               ("image",
                JStr ("data:image/jpeg;base64,"
                      ++ @b64encode TestServer.runtime jpeg));
               ("info",
                JObj [("original_width", JInt 1000);
                      ("original_height", JInt 2000);
                      ("crop_mode", JInt 7);
                      ("result_width", JInt 1080);
                      ("result_height", JInt 1920);
                      ("file_size",
                       JInt (Z.of_nat (List.length jpeg)))])]%string)).
Proof.
  apply (@valid_image_answered TestCodec.pillow TestServer.runtime
           TestCodec.portrait (JInt 7)
           (mkImage "RGBA" (1000, 2000) (Raise AttributeError) tt)).
  - vm_compute; reflexivity.
  - unfold valid_source, valid_dim, MAX_DIM, orientation_readable.
    cbn [size fst snd _getexif caught]. repeat split; lia.
Defined.
